(** * Vector state-channel core: messaging, commitments, transfers, deposits

    A shallow embedding of
    - [Result] (modules/types/src/error.ts),
    - [MemoryMessagingService] (in-memory messaging bus),
    - [generateSignedChannelCommitment], [validateChannelUpdateSignatures],
      [create], [resolve] and [reconcileDeposit] (protocol utilities),
    followed by the properties established about them. *)

From Stdlib Require Import ZArith List String Ascii Bool Lia.
From Stdlib Require Import DecimalString DecimalPos DecimalZ.
Import ListNotations.

Local Open Scope string_scope.
Local Open Scope Z_scope.

(** ** JavaScript values, truthiness, exceptions *)

Module JS.

(** The values an untyped JavaScript slot may hold.  Numbers are the
    integer-valued ones; objects are opaque and named by a tag. *)
Inductive value : Type :=
| Undefined
| Null
| Bool (b : bool)
| Num (z : Z)
| Str (s : string)
| Obj (tag : string).

(** What a thrown value (or a rejected promise) carries. *)
Inductive exn : Type :=
| Error (message : string)          (* new Error(message) *)
| EvtTimeout (timeout : Z)          (* evt's EvtError.Timeout *)
| NumericFault (fault operation : string) (* ethers' BigNumber faults *)
| InvalidArgument (message : string)
| CallException (message : string). (* a failed contract call or VM run *)

(** The result of running a piece of code: it returns or it throws. *)
Inductive outcome (A : Type) : Type :=
| Returned (a : A)
| Thrown (e : exn).
Arguments Returned {A} a.
Arguments Thrown {A} e.

Definition decimal (z : Z) : string := NilZero.string_of_int (Z.to_int z).

(** [if (x)] and [`${x}`] for each type of the model. *)
Class Like (A : Type) : Type := {
  truthy : A -> bool;
  toString : A -> string
}.

Definition value_truthy (v : value) : bool :=
  match v with
  | Undefined | Null => false
  | Bool b => b
  | Num z => negb (z =? 0)
  | Str s => negb (s =? "")%string
  | Obj _ => true
  end.

Definition value_toString (v : value) : string :=
  match v with
  | Undefined => "undefined"
  | Null => "null"
  | Bool true => "true"
  | Bool false => "false"
  | Num z => decimal z
  | Str s => s
  | Obj _ => "[object Object]"
  end.

#[export] Instance value_Like : Like value :=
  {| truthy := value_truthy; toString := value_toString |}.

(** A string slot: truthy unless empty. *)
#[export] Instance string_Like : Like string :=
  {| truthy := fun s => negb (s =? "")%string; toString := fun s => s |}.

(** An optional slot [x?: T]: [None] is [undefined]. *)
#[export] Instance option_Like {A} `{Like A} : Like (option A) :=
  {| truthy := fun o => match o with Some a => truthy a | None => false end;
     toString := fun o => match o with Some a => toString a | None => "undefined" end |}.

(** [xs.filter((x) => !!x)] *)
Definition filterTruthy {A} `{Like A} (xs : list A) : list A :=
  filter truthy xs.

End JS.
Import JS.

(** ** error.ts: Result *)

Module Result.
Section Result.
Context {T Y : Type} `{Like Y}.

(** The three fields of the class; an unset field is [None]. *)
Record t : Type := mk {
  value : option T;
  error : option Y;
  isError : bool
}.

(** [private constructor(error?: Y, value?: T)] *)
Definition construct (error : option Y) (value : option T) : t :=
  if truthy error
  then {| value := None; error := error; isError := true |}
  else {| value := value; error := None; isError := false |}.

(** [public getValue(): T] *)
Definition getValue (r : t) : outcome (option T) :=
  if isError r
  then Thrown (Error ("Can't getValue() of error result: " ++ toString (error r)))
  else Returned (value r).

(** [public getError(): Y | undefined] *)
Definition getError (r : t) : option Y :=
  if isError r then error r else None.

(** [public static fail(error)]; [Result.fail(x!)] on an optional [x] is
    [construct x None]. *)
Definition fail (error : Y) : t := construct (Some error) None.

(** [public static ok(result)] *)
Definition ok (result : T) : t := construct None (Some result).

End Result.
Arguments t : clear implicits.
End Result.

(** ** Channel data (the fields read by the code below) *)

Module Balance.
(** [type Balance = { to: string[]; amount: string[] }] *)
Record t : Type := mk { to : list string; amount : list string }.
End Balance.

(** [ChannelUpdate<any>]: the details bag is opaque. *)
Record ChannelUpdate : Type := {
  cu_channelAddress : string;
  fromIdentifier : string;
  toIdentifier : string;
  cu_type : string;
  cu_nonce : Z;
  cu_balance : Balance.t;
  cu_assetId : string;
  cu_details : JS.value;
  cu_signatures : list (option string)
}.

(** [InboundChannelUpdateError]: an error object, hence always truthy. *)
Record InboundChannelUpdateError : Type := {
  message : string;
  context : JS.value
}.

#[export] Instance InboundChannelUpdateError_Like : Like InboundChannelUpdateError :=
  {| truthy := fun _ => true; toString := fun e => "Error: " ++ message e |}.

(** ** MemoryMessagingService *)

(** The [data] field of a bus event. *)
Record MsgData : Type := {
  update : option ChannelUpdate;
  previousUpdate : option ChannelUpdate;
  error : option InboundChannelUpdateError
}.

(** The event type of [evt]. *)
Record Msg : Type := {
  to : string;
  from : string;
  inbox : option string;
  data : MsgData;
  sentBy : string
}.

(** What [sendProtocolMessage] resolves to and what the receive callback
    is given: [{ update, previousUpdate }] (the [!] assertions are erased at
    run time, so either field may be [undefined]). *)
Record Payload : Type := {
  p_update : option ChannelUpdate;
  p_previousUpdate : option ChannelUpdate
}.

Definition ProtocolResult : Type := Result.t Payload InboundChannelUpdateError.

Definition optstr_eqb (a b : option string) : bool :=
  match a, b with
  | Some x, Some y => (x =? y)%string
  | None, None => true
  | _, _ => false
  end.

(** The promise returned by [evt.pipe(filter).waitFor(timeout)]. *)
Inductive Promise : Type :=
| Pending
| Resolved (res : Msg)
| Rejected (e : exn).

(** A one-shot handler attached by [waitFor]. *)
Record Waiter : Type := {
  accepts : Msg -> bool;
  timeout_ms : Z;
  deadline : Z;
  promise : Promise
}.

(** A permanent handler attached by [onReceiveProtocolMessage]; the callback
    is known by name. *)
Record Subscriber : Type := {
  myPublicIdentifier : string;
  callback : string
}.

(** One invocation [callback(result, from, inbox)]. *)
Record Call : Type := {
  callee : string;
  call_result : ProtocolResult;
  call_from : string;
  call_inbox : option string
}.

(** The service object together with what surrounds it: the random source
    behind [getRandomBytes32], the clock, the handlers attached to [evt],
    and two logs (every event given to [evt.post]; every callback call). *)
Record World : Type := {
  entropy : nat -> string;
  drawn : nat;
  now : Z;
  waiters : list Waiter;
  subscribers : list Subscriber;
  posted : list Msg;
  delivered : list Call
}.

(** [new MemoryMessagingService()] at time 0. *)
Definition newService (entropy : nat -> string) : World :=
  {| entropy := entropy; drawn := 0; now := 0; waiters := [];
     subscribers := []; posted := []; delivered := [] |}.

(** [getRandomBytes32()] *)
Definition getRandomBytes32 (w : World) : string * World :=
  (entropy w (drawn w),
   {| entropy := entropy w; drawn := S (drawn w); now := now w;
      waiters := waiters w; subscribers := subscribers w;
      posted := posted w; delivered := delivered w |}).

(** A pending one-shot handler takes the first event its filter accepts. *)
Definition offer (m : Msg) (h : Waiter) : Waiter :=
  match promise h with
  | Pending =>
      if accepts h m
      then {| accepts := accepts h; timeout_ms := timeout_ms h;
              deadline := deadline h; promise := Resolved m |}
      else h
  | _ => h
  end.

(** The callback body of [onReceiveProtocolMessage]. *)
Definition invoke (m : Msg) (s : Subscriber) : Call :=
  {| callee := callback s;
     call_result :=
       Result.ok {| p_update := update (data m);
                    p_previousUpdate := previousUpdate (data m) |};
     call_from := from m;
     call_inbox := inbox m |}.

(** [.pipe(({ to }) => to === myPublicIdentifier)] *)
Definition addressed (m : Msg) (s : Subscriber) : bool :=
  (to m =? myPublicIdentifier s)%string.

(** [this.evt.post(m)]: handlers run synchronously, in attach order. *)
Definition post (m : Msg) (w : World) : World :=
  {| entropy := entropy w; drawn := drawn w; now := now w;
     waiters := map (offer m) (waiters w);
     subscribers := subscribers w;
     posted := posted w ++ [m];
     delivered := delivered w ++ map (invoke m) (filter (addressed m) (subscribers w)) |}.

(** A pending promise whose timer has fired is rejected with evt's
    timeout error. *)
Definition expire (t : Z) (h : Waiter) : Waiter :=
  match promise h with
  | Pending =>
      if deadline h <=? t
      then {| accepts := accepts h; timeout_ms := timeout_ms h;
              deadline := deadline h;
              promise := Rejected (EvtTimeout (timeout_ms h)) |}
      else h
  | _ => h
  end.

(** [dt] milliseconds pass. *)
Definition advance (dt : Z) (w : World) : World :=
  {| entropy := entropy w; drawn := drawn w; now := now w + dt;
     waiters := map (expire (now w + dt)) (waiters w);
     subscribers := subscribers w; posted := posted w;
     delivered := delivered w |}.

(** [evt.pipe(filter).waitFor(timeout)]: attaches the handler and returns
    its position, which stands for the promise. *)
Definition waitFor (filter : Msg -> bool) (timeout : Z) (w : World) : nat * World :=
  (List.length (waiters w),
   {| entropy := entropy w; drawn := drawn w; now := now w;
      waiters := waiters w ++
        [{| accepts := filter; timeout_ms := timeout;
            deadline := now w + timeout; promise := Pending |}];
      subscribers := subscribers w; posted := posted w;
      delivered := delivered w |}).

(** The filter of [sendProtocolMessage].  Its parameter destructures a field
    named [inbox], which hides the enclosing [const inbox]: both sides of
    [inbox === inbox] are the event's own field. *)
Definition replyFilter (channelUpdate : ChannelUpdate) (inbox0 : string) (m : Msg) : bool :=
  let '(to, from, inbox, sentBy) := (to m, from m, inbox m, sentBy m) in
  (from =? toIdentifier channelUpdate)%string &&
  (to =? fromIdentifier channelUpdate)%string &&
  optstr_eqb inbox inbox &&
  (sentBy =? toIdentifier channelUpdate)%string.

Definition default {A} (d : A) (o : option A) : A :=
  match o with Some a => a | None => d end.

(** [sendProtocolMessage], up to the [await]: returns the pending promise. *)
Definition sendProtocolMessage_start
    (channelUpdate : ChannelUpdate) (previousUpdate : option ChannelUpdate)
    (timeout numRetries : option Z) (w : World) : nat * World :=
  let timeout := default 20000 timeout in
  let numRetries := default 0 numRetries in
  let '(inbox, w) := getRandomBytes32 w in
  let '(responsePromise, w) := waitFor (replyFilter channelUpdate inbox) timeout w in
  let w := post {| to := toIdentifier channelUpdate;
                   from := fromIdentifier channelUpdate;
                   inbox := Some inbox;
                   data := {| update := Some channelUpdate;
                              previousUpdate := previousUpdate;
                              error := None |};
                   sentBy := fromIdentifier channelUpdate |} w in
  (responsePromise, w).

(** [sendProtocolMessage], from the [await] on.  [None]: the promise is
    still pending and the call stays suspended. *)
Definition sendProtocolMessage_finish (responsePromise : nat) (w : World)
  : option (outcome ProtocolResult) :=
  match nth_error (waiters w) responsePromise with
  | Some h =>
      match promise h with
      | Pending => None
      | Rejected e => Some (Thrown e)
      | Resolved res =>
          Some (Returned
            (if truthy (error (data res))
             then Result.construct (error (data res)) None
             else Result.ok {| p_update := update (data res);
                               p_previousUpdate := previousUpdate (data res) |}))
      end
  | None => None
  end.

(** The whole call, given what the other tasks do to the world while this
    one is suspended. *)
Definition sendProtocolMessage
    (channelUpdate : ChannelUpdate) (previousUpdate : option ChannelUpdate)
    (timeout numRetries : option Z) (others : World -> World) (w : World)
  : option (outcome ProtocolResult) * World :=
  let '(responsePromise, w) :=
    sendProtocolMessage_start channelUpdate previousUpdate timeout numRetries w in
  let w := others w in
  (sendProtocolMessage_finish responsePromise w, w).

(** [respondToProtocolMessage] *)
Definition respondToProtocolMessage
    (sentBy : string) (channelUpdate : ChannelUpdate) (inbox : string)
    (previousUpdate : option ChannelUpdate) (w : World) : World :=
  post {| to := fromIdentifier channelUpdate;
          from := toIdentifier channelUpdate;
          inbox := Some inbox;
          data := {| update := Some channelUpdate;
                     previousUpdate := previousUpdate;
                     error := None |};
          sentBy := sentBy |} w.

(** [respondWithProtocolError] *)
Definition respondWithProtocolError
    (updateFromIdentifier updateToIdentifier inbox : string)
    (error : InboundChannelUpdateError) (w : World) : World :=
  post {| to := updateFromIdentifier;
          from := updateToIdentifier;
          inbox := Some inbox;
          data := {| update := None; previousUpdate := None; error := Some error |};
          sentBy := updateToIdentifier |} w.

(** [onReceiveProtocolMessage] *)
Definition onReceiveProtocolMessage
    (myPublicIdentifier : string) (callback : string) (w : World) : World :=
  {| entropy := entropy w; drawn := drawn w; now := now w;
     waiters := waiters w;
     subscribers := subscribers w ++
       [{| myPublicIdentifier := myPublicIdentifier; callback := callback |}];
     posted := posted w; delivered := delivered w |}.

(** ** Channel state and commitments *)

Record NetworkContext : Type := {
  chainId : Z;
  adjudicatorAddress : string
}.

(** [FullChannelState]: the nine core fields (those [isChannelState] tests
    for) and the three that extend them. *)
Record FullChannelState : Type := {
  channelAddress : string;
  participants : list string;
  timeout : string;
  balances : list Balance.t;
  lockedBalance : list string;
  assetIds : list string;
  nonce : Z;
  latestDepositNonce : Z;
  merkleRoot : string;
  publicIdentifiers : list string;
  latestUpdate : option ChannelUpdate;
  networkContext : NetworkContext
}.

(** What [const { publicIdentifiers, networkContext, ...core } = state]
    leaves in [core]. *)
Record CoreRest : Type := {
  core_channelAddress : string;
  core_participants : list string;
  core_timeout : string;
  core_balances : list Balance.t;
  core_lockedBalance : list string;
  core_assetIds : list string;
  core_nonce : Z;
  core_latestDepositNonce : Z;
  core_merkleRoot : string;
  core_latestUpdate : option ChannelUpdate
}.

Definition rest (s : FullChannelState) : CoreRest :=
  {| core_channelAddress := channelAddress s;
     core_participants := participants s;
     core_timeout := timeout s;
     core_balances := balances s;
     core_lockedBalance := lockedBalance s;
     core_assetIds := assetIds s;
     core_nonce := nonce s;
     core_latestDepositNonce := latestDepositNonce s;
     core_merkleRoot := merkleRoot s;
     core_latestUpdate := latestUpdate s |}.

(** [ChannelCommitmentData]; a signature slot may be [undefined] or empty. *)
Record ChannelCommitmentData : Type := {
  c_chainId : Z;
  c_state : CoreRest;
  c_adjudicatorAddress : string;
  c_signatures : list (option string)
}.

(** The two helpers imported from the utilities package.  Their bodies are
    not part of the code at hand; the functions below are stated for any
    pair of them.  The recovery is awaited: it yields an address, or it
    rejects (on a signature it cannot read). *)
Class VectorUtils : Type := {
  hashChannelCommitment : ChannelCommitmentData -> string;
  recoverAddressFromChannelMessage : string -> string -> outcome string
}.

(** [IChannelSigner] *)
Record IChannelSigner : Type := {
  address : string;
  signMessage : string -> string
}.

(** [{ ...unsigned, signatures }] for the state at hand. *)
Definition commitment (s : FullChannelState) (signatures : list (option string))
  : ChannelCommitmentData :=
  {| c_chainId := chainId (networkContext s);
     c_state := rest s;
     c_adjudicatorAddress := adjudicatorAddress (networkContext s);
     c_signatures := signatures |}.

(** [xs.findIndex(p)], [-1] when nothing matches. *)
Fixpoint findIndex {A} (p : A -> bool) (xs : list A) : Z :=
  match xs with
  | [] => -1
  | x :: xs' =>
      if p x then 0
      else let i := findIndex p xs' in if i <? 0 then -1 else i + 1
  end.

(** [xs.map((x, idx) => f(x, idx))], counting from [idx]. *)
Fixpoint mapi_from {A B} (idx : nat) (f : A -> nat -> B) (xs : list A) : list B :=
  match xs with
  | [] => []
  | x :: xs' => f x idx :: mapi_from (S idx) f xs'
  end.

Definition mapi {A B} (f : A -> nat -> B) (xs : list A) : list B :=
  mapi_from 0 f xs.

(** [generateSignedChannelCommitment]: the commitment, and the digests that
    were handed to [signer.signMessage] on the way. *)
Definition generateSignedChannelCommitment `{VectorUtils}
    (newState : FullChannelState) (signer : IChannelSigner)
    (updateSignatures : list (option string))
  : ChannelCommitmentData * list string :=
  let unsigned := commitment newState in
  let filteredSigs := filterTruthy updateSignatures in
  if (List.length filteredSigs =? 2)%nat
  then (unsigned updateSignatures, [])
  else
    let counterpartySignature := hd None filteredSigs in
    let digest := hashChannelCommitment (unsigned []) in
    let sig := signMessage signer digest in
    let idx := findIndex (fun p => (p =? address signer)%string) (participants newState) in
    (unsigned (if idx =? 0
               then [Some sig; counterpartySignature]
               else [counterpartySignature; Some sig]),
     [digest]).

(** The body of the [map] callback of [validateChannelUpdateSignatures]:
    what the callback's promise settles to (the slot's value after the check,
    or the rejection of the recovery), and the [(digest, signature)] pairs
    handed to [recoverAddressFromChannelMessage]. *)
Definition verifySlot `{VectorUtils} (participants : list string) (hash : string)
    (sigToVerify : option string) (idx : nat)
  : outcome (option string) * list (string * string) :=
  match sigToVerify with
  | Some sig =>
      if negb (truthy sig) then (Returned None, [])
      else
        (match recoverAddressFromChannelMessage hash sig with
         | Returned recovered =>
             Returned (match nth_error participants idx with
                       | Some p => if (recovered =? p)%string then sigToVerify else None
                       | None => None
                       end)
         | Thrown e => Thrown e
         end,
         [(hash, sig)])
  | None => (Returned None, [])
  end.

(** [await Promise.all(promises)]: every value, or the first rejection. *)
Fixpoint awaitAll {A} (promises : list (outcome A)) : outcome (list A) :=
  match promises with
  | [] => Returned []
  | Thrown e :: _ => Thrown e
  | Returned a :: promises' =>
      match awaitAll promises' with
      | Returned values => Returned (a :: values)
      | Thrown e => Thrown e
      end
  end.

Definition onlyOf (n requiredSigs : nat) (what : string) : string :=
  "Only " ++ decimal (Z.of_nat n) ++ "/" ++ decimal (Z.of_nat requiredSigs) ++ what.

(** [validateChannelUpdateSignatures]: what the call comes to (the rejection
    text, [None] when the signatures pass, or the error it throws when a
    recovery rejects: nothing catches it), and the recoveries that were
    started. *)
Definition validateChannelUpdateSignatures `{VectorUtils}
    (state : FullChannelState) (updateSignatures : list (option string))
    (requiredSigs : option nat)
  : outcome (option string) * list (string * string) :=
  let requiredSigs := default 1%nat requiredSigs in
  let present := List.length (filterTruthy updateSignatures) in
  if (present <? requiredSigs)%nat
  then (Returned (Some (onlyOf present requiredSigs " signatures present")), [])
  else
    let hash := hashChannelCommitment (commitment state []) in
    let checked := mapi (verifySlot (participants state) hash) updateSignatures in
    let recoveries := List.concat (map snd checked) in
    (match awaitAll (map fst checked) with
     | Returned settled =>
         let valid := filterTruthy settled in
         if (List.length valid <? requiredSigs)%nat
         then Returned (Some (onlyOf (List.length valid) requiredSigs
                                     " are valid signatures"))
         else Returned None
     | Thrown e => Thrown e
     end,
     recoveries).

(** ** Sequencing code that may throw *)

Definition bind {A B} (c : outcome A) (k : A -> outcome B) : outcome B :=
  match c with
  | Returned a => k a
  | Thrown e => Thrown e
  end.

Notation "x <- c ;; k" := (bind c (fun x => k))
  (at level 61, c at next level, right associativity).

(** [try { body } catch (e) { handler }] *)
Definition try_catch {A} (body : outcome A) (handler : exn -> outcome A) : outcome A :=
  match body with
  | Returned a => Returned a
  | Thrown e => handler e
  end.

(** ** Transfers: create and resolve *)

(** The fields of [FullTransferState] that [create] and [resolve] read. *)
Record FullTransferState : Type := {
  transferId : string;
  transferDefinition : string;
  transferEncodings : list string;
  transferState : JS.value;
  transferResolver : JS.value
}.

(** What the contract's [resolve] yields: addresses and big numbers. *)
Record ResolveReturn : Type := {
  ret_to : list string;
  ret_amount : list Z
}.

(** An amount as it sits in the returned balance: decimal text, or a big
    number left as it came. *)
Inductive Amount : Type :=
| Text (s : string)
| Big (z : Z).

Record ResolvedBalance : Type := {
  rb_to : list string;
  rb_amount : list Amount
}.

(** The libraries the two functions lean on: the ABI coder, the contract
    interface (the same ABI whatever the address), the EVM in wasm, and
    calls to a deployed contract, which take the contract's address. *)
Class TransferRuntime : Type := {
  abi_encode : list (option string) -> list JS.value -> outcome string;
  encodeFunctionData : string -> list string -> outcome string;
  evm_exec : string -> string -> outcome string;
  decodeCreateResult : string -> outcome bool;
  decodeResolveResult : string -> outcome ResolveReturn;
  call_create : string -> string -> outcome bool;
  call_resolve : string -> string -> string -> outcome ResolveReturn
}.

(** [s.replace(/^0x/, "")] *)
Definition strip0x (s : string) : string :=
  match s with
  | String "0" (String "x" s') => s'
  | _ => s
  end.

(** [execEvmBytecode]: the machine is given the two hex texts without their
    prefix, standing for the bytes they spell. *)
Definition execEvmBytecode `{TransferRuntime} (bytecode payload : string) : outcome string :=
  evm_exec (strip0x bytecode) (strip0x payload).

(** [new Contract(address, TransferDefinition.abi, signer)] *)
Record Contract : Type := { contractAddress : string }.

(** [create] (the logger call in the handler is left out). *)
Definition create `{TransferRuntime} (transfer : FullTransferState)
    (bytecode : option string) : outcome bool :=
  encodedState <- abi_encode [nth_error (transferEncodings transfer) 0]
                             [transferState transfer] ;;
  let contract := {| contractAddress := transferId transfer |} in
  let onchain := call_create (contractAddress contract) encodedState in
  match bytecode with
  | Some code =>
      if truthy code
      then try_catch
             (data <- encodeFunctionData "create" [encodedState] ;;
              output <- execEvmBytecode code data ;;
              decodeCreateResult output)
             (fun _ => onchain)
      else onchain
  | None => onchain
  end.

(** [resolve] (likewise). *)
Definition resolve `{TransferRuntime} (transfer : FullTransferState)
    (bytecode : option string) : outcome ResolvedBalance :=
  encodedState <- abi_encode [nth_error (transferEncodings transfer) 0]
                             [transferState transfer] ;;
  encodedResolver <- abi_encode [nth_error (transferEncodings transfer) 1]
                                [transferResolver transfer] ;;
  let contract := {| contractAddress := transferDefinition transfer |} in
  let onchain :=
    ret <- call_resolve (contractAddress contract) encodedState encodedResolver ;;
    Returned {| rb_to := ret_to ret;
                rb_amount := map (fun a => Text (decimal a)) (ret_amount ret) |} in
  match bytecode with
  | Some code =>
      if truthy code
      then try_catch
             (data <- encodeFunctionData "resolve" [encodedState; encodedResolver] ;;
              output <- execEvmBytecode code data ;;
              ret <- decodeResolveResult output ;;
              Returned {| rb_to := ret_to ret; rb_amount := map Big (ret_amount ret) |})
             (fun _ => onchain)
      else onchain
  | None => onchain
  end.

(** ** Big numbers (ethers) *)

Module BigNumber.

(** [0x1fffffffffffff] *)
Definition MAX_SAFE : Z := 9007199254740991.

(** [BigNumber.from(text)] for decimal text, [-?[0-9]+].  (The library
    also reads [0x]-prefixed hexadecimal text, which amounts never are.) *)
Definition fromString (s : string) : outcome Z :=
  match NilZero.int_of_string s with
  | Some d => Returned (Z.of_int d)
  | None => Thrown (InvalidArgument "invalid BigNumber string")
  end.

(** [BigNumber.from(x)] for a slot that may be [undefined]. *)
Definition fromSlot (o : option string) : outcome Z :=
  match o with
  | Some s => fromString s
  | None => Thrown (InvalidArgument "invalid BigNumber value")
  end.

(** [BigNumber.from(n)] for an integer-valued number. *)
Definition fromNumber (n : Z) : outcome Z :=
  if (MAX_SAFE <=? n) || (n <=? - MAX_SAFE)
  then Thrown (NumericFault "overflow" "BigNumber.from")
  else Returned n.

(** [a.toNumber()] *)
Definition toNumber (a : Z) : outcome Z :=
  if Z.abs a <? 2 ^ 53
  then Returned a
  else Thrown (NumericFault "overflow" "toNumber").

(** [a.toString()] *)
Definition toString (a : Z) : string := decimal a.

(** [a.gt(n)] with [n] a number *)
Definition gt (a : Z) (n : Z) : outcome bool :=
  b <- fromNumber n ;; Returned (b <? a).

(** [a.add(text)] *)
Definition add (a : Z) (b : option string) : outcome Z :=
  b' <- fromSlot b ;; Returned (a + b').

End BigNumber.

(** ** Deposit reconciliation *)

(** An [Error] object is truthy. *)
#[export] Instance exn_Like : Like exn :=
  {| truthy := fun _ => true;
     toString := fun e => match e with
                          | Error m | InvalidArgument m | CallException m => "Error: " ++ m
                          | EvtTimeout _ => "Error: Evt timeout"
                          | NumericFault f _ => "Error: " ++ f
                          end |}.

(** The latest deposit record on chain. *)
Record Deposit : Type := {
  d_nonce : Z;
  d_amount : Z
}.

(** The two methods of [IVectorOnchainService] that reconciliation calls. *)
Record IVectorOnchainService : Type := {
  getChannelOnchainBalance : string -> Z -> string -> Result.t Z exn;
  getLatestDepositByAssetId : string -> Z -> string -> Z -> Result.t Deposit exn
}.

Record Reconciled : Type := {
  r_balance : Balance.t;
  r_latestDepositNonce : Z
}.

(** Reading a field of [undefined] *)
Definition defined {A} (o : option A) : outcome A :=
  match o with
  | Some a => Returned a
  | None => Thrown (Error "TypeError: Cannot read property of undefined")
  end.

(** [reconcileDeposit] *)
Definition reconcileDeposit
    (channelAddress : string) (chainId : Z) (initialBalance : Balance.t)
    (latestDepositNonce : Z) (lockedBalance : string) (assetId : string)
    (onchainService : IVectorOnchainService)
  : outcome (Result.t Reconciled exn) :=
  let balanceRes := getChannelOnchainBalance onchainService channelAddress chainId assetId in
  if Result.isError balanceRes
  then Returned (Result.construct (Result.getError balanceRes) None)
  else
    onchainBalance <- Result.getValue balanceRes ;;
    let latestDepositARes :=
      getLatestDepositByAssetId onchainService channelAddress chainId assetId
                                latestDepositNonce in
    if Result.isError latestDepositARes
    then Returned (Result.construct (Result.getError latestDepositARes) None)
    else
      latestDepositA <- Result.getValue latestDepositARes ;;
      latestDepositA <- defined latestDepositA ;;
      newer <- BigNumber.gt (d_nonce latestDepositA) latestDepositNonce ;;
      balanceA <- (if newer : bool
                   then BigNumber.add (d_amount latestDepositA)
                                      (nth_error (Balance.amount initialBalance) 0)
                   else BigNumber.fromSlot (nth_error (Balance.amount initialBalance) 0)) ;;
      onchainBalance <- match onchainBalance with
                        | Some b => Returned b
                        | None => Thrown (InvalidArgument "invalid BigNumber value")
                        end ;;
      debit <- BigNumber.add balanceA (Some lockedBalance) ;;
      let balance :=
        {| Balance.to := Balance.to initialBalance;
           Balance.amount := [BigNumber.toString balanceA;
                              BigNumber.toString (onchainBalance - debit)] |} in
      nonce <- BigNumber.toNumber (d_nonce latestDepositA) ;;
      Returned (Result.ok {| r_balance := balance; r_latestDepositNonce := nonce |}).

(** ** What the other tasks do while a call is suspended *)

Inductive Step : Type :=
| Post (m : Msg)
| Advance (dt : Z).

Definition step (s : Step) (w : World) : World :=
  match s with
  | Post m => post m w
  | Advance dt => advance dt w
  end.

Definition run (script : list Step) (w : World) : World :=
  fold_left (fun w s => step s w) script w.

Definition messagesOf (script : list Step) : list Msg :=
  flat_map (fun s => match s with Post m => [m] | Advance _ => [] end) script.

Definition elapsed (script : list Step) : Z :=
  fold_right (fun s acc => match s with Post _ => acc | Advance dt => dt + acc end) 0 script.

Definition forward (s : Step) : bool :=
  match s with Post _ => true | Advance dt => 0 <=? dt end.

(** One handler seen through a script that starts at time [t]. *)
Fixpoint evolve (t : Z) (script : list Step) (h : Waiter) : Waiter :=
  match script with
  | [] => h
  | Post m :: script' => evolve t script' (offer m h)
  | Advance dt :: script' => evolve (t + dt) script' (expire (t + dt) h)
  end.

(** The event [sendProtocolMessage] itself posts. *)
Definition outbound (channelUpdate : ChannelUpdate) (previousUpdate : option ChannelUpdate)
    (inbox : string) : Msg :=
  {| to := toIdentifier channelUpdate;
     from := fromIdentifier channelUpdate;
     inbox := Some inbox;
     data := {| update := Some channelUpdate;
                previousUpdate := previousUpdate;
                error := None |};
     sentBy := fromIdentifier channelUpdate |}.



(** ** Slots of a signature array, as the validity rule speaks of them *)

(** Slot [i] holds a non-empty signature that recovers to [participants[i]]. *)
Definition slotValid `{VectorUtils} (state : FullChannelState) (slot : nat * option string) : bool :=
  match snd slot with
  | Some sig =>
      negb (sig =? "")%string &&
      match nth_error (participants state) (fst slot),
            recoverAddressFromChannelMessage
              (hashChannelCommitment (commitment state [])) sig with
      | Some p, Returned recovered => (recovered =? p)%string
      | _, _ => false
      end
  | None => false
  end.

(** Slot [i] holds a non-empty signature whose recovery rejects. *)
Definition slotFault `{VectorUtils} (state : FullChannelState) (slot : nat * option string)
  : option exn :=
  match snd slot with
  | Some sig =>
      if (sig =? "")%string then None
      else match recoverAddressFromChannelMessage
                   (hashChannelCommitment (commitment state [])) sig with
           | Thrown e => Some e
           | Returned _ => None
           end
  | None => None
  end.

Fixpoint firstSome {A} (xs : list (option A)) : option A :=
  match xs with
  | [] => None
  | Some a :: _ => Some a
  | None :: xs' => firstSome xs'
  end.

Definition slots (sigs : list (option string)) : list (nat * option string) :=
  combine (seq 0 (List.length sigs)) sigs.

Definition validCount `{VectorUtils} (state : FullChannelState) (sigs : list (option string)) : nat :=
  List.length (filter (slotValid state) (slots sigs)).

Definition presentCount (sigs : list (option string)) : nat :=
  List.length (filter (fun s => truthy s) sigs).

(** The non-empty signatures of an array, in order. *)
Definition presentSignatures (sigs : list (option string)) : list string :=
  flat_map (fun slot => match slot with
                        | Some sig => if (sig =? "")%string then [] else [sig]
                        | None => []
                        end) sigs.

(** The rejection of the lowest slot whose recovery rejects, if any does. *)
Definition firstFault `{VectorUtils} (state : FullChannelState) (sigs : list (option string))
  : option exn :=
  firstSome (map (slotFault state) (slots sigs)).

(** Every digest a signing and a validation of the same state work with. *)
Definition digestsUsed `{VectorUtils} (state : FullChannelState) (signer : IChannelSigner)
    (sigs : list (option string)) (requiredSigs : option nat) : list string :=
  (snd (generateSignedChannelCommitment state signer sigs) ++
   map fst (snd (validateChannelUpdateSignatures state sigs requiredSigs)))%list.

(** ** Concrete data used in the examples *)

Module Demo.

Definition alice : string := "vector8AliceIdentifier".
Definition bob : string := "vector8BobIdentifier".
Definition aliceAddress : string := "0xaaaa".
Definition bobAddress : string := "0xbbbb".

Definition noBalance : Balance.t := Balance.mk [] [].

Definition updateOn (channel : string) (nonce : Z) : ChannelUpdate :=
  {| cu_channelAddress := channel;
     fromIdentifier := alice;
     toIdentifier := bob;
     cu_type := "deposit";
     cu_nonce := nonce;
     cu_balance := noBalance;
     cu_assetId := "0x0";
     cu_details := Obj "details";
     cu_signatures := [] |}.

Definition updateA : ChannelUpdate := updateOn "0xChannelA" 2.
Definition updateB : ChannelUpdate := updateOn "0xChannelB" 7.

(** The random source yields "inbox-0", "inbox-1", ... *)
Definition inboxes (n : nat) : string := "inbox-" ++ decimal (Z.of_nat n).

Definition service : World := newService inboxes.

Definition staleUpdate : InboundChannelUpdateError :=
  {| message := "Update is stale"; context := Obj "context" |}.

Definition state : FullChannelState :=
  {| channelAddress := "0xChannelA";
     participants := [aliceAddress; bobAddress];
     timeout := "86400";
     balances := [Balance.mk [aliceAddress; bobAddress] ["0"; "0"]];
     lockedBalance := ["0"];
     assetIds := ["0x0"];
     nonce := 1;
     latestDepositNonce := 0;
     merkleRoot := "0x00";
     publicIdentifiers := [alice; bob];
     latestUpdate := None;
     networkContext := {| chainId := 1; adjudicatorAddress := "0xAdjudicator" |} |}.

(** A toy signature scheme: the signature of a digest by an address is the
    address, a bar, and the digest.  A text without a bar is not a signature,
    and its recovery rejects. *)
Definition toySign (address digest : string) : string :=
  address ++ "|" ++ digest.

Definition toyRecover (digest sig : string) : outcome string :=
  match index 0 "|" sig with
  | Some n =>
      Returned (if (substring (S n) (String.length sig - S n) sig =? digest)%string
                then substring 0 n sig
                else "0x0000")
  | None => Thrown (InvalidArgument "invalid signature")
  end.

Definition toyHash (c : ChannelCommitmentData) : string :=
  "digest(" ++ decimal (c_chainId c) ++ "," ++ core_channelAddress (c_state c) ++ ","
    ++ decimal (core_nonce (c_state c)) ++ "," ++ c_adjudicatorAddress c ++ ")".

Definition utils : VectorUtils :=
  {| hashChannelCommitment := toyHash;
     recoverAddressFromChannelMessage := toyRecover |}.

Definition signerOf (address : string) : IChannelSigner :=
  {| address := address; signMessage := toySign address |}.

Definition digest : string := toyHash (commitment state []).
Definition sigAlice : string := toySign aliceAddress digest.
Definition sigBob : string := toySign bobAddress digest.

(** A chain on which the transfer definition is deployed at
    [definitionAddress] and nowhere else; no ABI or VM failure. *)
Definition definitionAddress : string := "0xDef1".

Definition runtime : TransferRuntime :=
  {| abi_encode := fun _ _ => Returned "0xencoded";
     encodeFunctionData := fun method _ => Returned ("0xcall-" ++ method);
     evm_exec := fun _ _ => Thrown (CallException "bad bytecode");
     decodeCreateResult := fun _ => Returned true;
     decodeResolveResult := fun _ => Returned {| ret_to := []; ret_amount := [] |};
     call_create := fun address _ =>
       if (address =? definitionAddress)%string then Returned true
       else Thrown (CallException "call exception: no contract at address");
     call_resolve := fun address _ _ =>
       if (address =? definitionAddress)%string
       then Returned {| ret_to := [aliceAddress; bobAddress]; ret_amount := [0; 40] |}
       else Thrown (CallException "call exception: no contract at address") |}.

Definition transfer : FullTransferState :=
  {| transferId := "0x7ransfer1d";
     transferDefinition := definitionAddress;
     transferEncodings := ["tuple(uint256 lockHash)"; "tuple(bytes32 preImage)"];
     transferState := Obj "state";
     transferResolver := Obj "resolver" |}.

(** The chain of the deposit scenario: balance 100, latest deposit
    {amount: 100, nonce: 1}. *)
Definition chain : IVectorOnchainService :=
  {| getChannelOnchainBalance := fun _ _ _ => Result.ok 100;
     getLatestDepositByAssetId := fun _ _ _ _ =>
       Result.ok {| d_nonce := 1; d_amount := 100 |} |}.

End Demo.

(** ** Untyped values with fields *)

Module Json.

(** A value an [any] slot may hold: primitives, arrays, plain objects, and
    instances of [Error] (the message, and the own enumerable fields).
    [Num] is an integer-valued number; [Real] is any other number, known by
    its text. *)
#[local] Unset Elimination Schemes.
Inductive t : Type :=
| Undefined
| Null
| Bool (b : bool)
| Num (z : Z)
| Real (text : string)
| Str (s : string)
| Arr (items : list t)
| Obj (fields : list (string * t))
| Err (message : string) (own : list (string * t)).
#[local] Set Elimination Schemes.

Definition truthy (v : t) : bool :=
  match v with
  | Undefined | Null => false
  | Bool b => b
  | Num z => negb (z =? 0)
  | Real text => negb (text =? "NaN")%string
  | Str s => negb (s =? "")%string
  | Arr _ | Obj _ | Err _ _ => true
  end.

(** [typeof v === "number"] *)
Definition isNumber (v : t) : bool :=
  match v with
  | Num _ | Real _ => true
  | _ => false
  end.

Fixpoint assoc (k : string) (fields : list (string * t)) : option t :=
  match fields with
  | [] => None
  | (k', v) :: fields' => if (k' =? k)%string then Some v else assoc k fields'
  end.

(** [{ ...fields, [k]: v }]: an existing key keeps its place. *)
Fixpoint set (k : string) (v : t) (fields : list (string * t)) : list (string * t) :=
  match fields with
  | [] => [(k, v)]
  | (k', v') :: fields' =>
      if (k' =? k)%string then (k, v) :: fields' else (k', v') :: set k v fields'
  end.

(** The array index a key spells, if it spells one. *)
Definition indexOf (k : string) : option nat :=
  match NilZero.uint_of_string k with
  | Some d => if (decimal (Z.of_nat (Nat.of_uint d)) =? k)%string
              then Some (Nat.of_uint d) else None
  | None => None
  end.

(** [v?.[k]]: the own field [k] of [v]; [undefined] on [undefined] and
    [null].  (Inherited members, an error's [name] and [stack], and strings
    beyond ASCII are outside the model.) *)
Definition get (v : t) (k : string) : t :=
  match v with
  | Obj fields => match assoc k fields with Some x => x | None => Undefined end
  | Err message own =>
      match assoc k own with
      | Some x => x
      | None => if (k =? "message")%string then Str message else Undefined
      end
  | Arr items =>
      if (k =? "length")%string then Num (Z.of_nat (List.length items))
      else match indexOf k with
           | Some n => nth n items Undefined
           | None => Undefined
           end
  | Str s =>
      if (k =? "length")%string then Num (Z.of_nat (String.length s))
      else match indexOf k with
           | Some n => match String.get n s with
                       | Some c => Str (String c EmptyString)
                       | None => Undefined
                       end
           | None => Undefined
           end
  | _ => Undefined
  end.

(** [v[k]]: as [get], but reading a field of [undefined] or [null] throws. *)
Definition index (v : t) (k : string) : outcome t :=
  match v with
  | Undefined | Null => Thrown (Error "TypeError: Cannot read property of undefined")
  | _ => Returned (get v k)
  end.

(** [`${v}`] *)
Fixpoint toText (v : t) : string :=
  match v with
  | Undefined => "undefined"
  | Null => "null"
  | Bool true => "true"
  | Bool false => "false"
  | Num z => decimal z
  | Real text => text
  | Str s => s
  | Arr items =>
      (fix join (l : list t) : string :=
         match l with
         | [] => ""
         | x :: l' =>
             (match x with Undefined | Null => "" | _ => toText x end) ++
             (match l' with [] => "" | _ => "," ++ join l' end)
         end) items
  | Obj _ => "[object Object]"
  | Err message _ => if (message =? "")%string then "Error" else "Error: " ++ message
  end.

End Json.

#[export] Instance Json_Like : Like Json.t :=
  {| truthy := Json.truthy; toString := Json.toText |}.

(** ** Type guards *)

(** [isChannelMessage] *)
Definition isChannelMessage (msg : Json.t) : bool :=
  if truthy (Json.get msg "error") then false
  else if negb (truthy (Json.get (Json.get msg "data") "update")) then false
  else true.

(** [isErrorMessage] *)
Definition isErrorMessage (msg : Json.t) : bool :=
  if negb (truthy (Json.get msg "error")) then false
  else if truthy (Json.get msg "data") then false
  else true.

(** [isChannelState] *)
Definition isChannelState (blob : Json.t) : bool :=
  if negb (truthy (Json.get blob "channelAddress")) then false
  else if negb (truthy (Json.get blob "participants")) then false
  else if negb (truthy (Json.get blob "timeout")) then false
  else if negb (truthy (Json.get blob "balances")) then false
  else if negb (truthy (Json.get blob "lockedBalance")) then false
  else if negb (truthy (Json.get blob "assetIds")) then false
  else if negb (Json.isNumber (Json.get blob "nonce")) then false
  else if negb (Json.isNumber (Json.get blob "latestDepositNonce")) then false
  else if negb (truthy (Json.get blob "merkleRoot")) then false
  else true.

(** A [CoreChannelState] as the object it is at run time. *)
Definition strings (xs : list string) : Json.t := Json.Arr (map Json.Str xs).

Definition balanceJson (b : Balance.t) : Json.t :=
  Json.Obj [("to", strings (Balance.to b)); ("amount", strings (Balance.amount b))].

Definition coreFields (s : FullChannelState) : list (string * Json.t) :=
  [("channelAddress", Json.Str (channelAddress s));
   ("participants", strings (participants s));
   ("timeout", Json.Str (timeout s));
   ("balances", Json.Arr (map balanceJson (balances s)));
   ("lockedBalance", strings (lockedBalance s));
   ("assetIds", strings (assetIds s));
   ("nonce", Json.Num (nonce s));
   ("latestDepositNonce", Json.Num (latestDepositNonce s));
   ("merkleRoot", Json.Str (merkleRoot s))].

(** ** Attaching handlers *)

(** One argument of [evt.attach]; filters and callbacks go by name. *)
Inductive AttachArg : Type :=
| ByFilter (name : string)
| ByTimeout (ms : Z)
| ByCallback (name : string).

#[export] Instance AttachArg_Like : Like AttachArg :=
  {| truthy := fun a => match a with
                        | ByTimeout ms => negb (ms =? 0)
                        | ByFilter _ | ByCallback _ => true
                        end;
     toString := fun a => match a with
                          | ByTimeout ms => decimal ms
                          | ByFilter name | ByCallback name => name
                          end |}.

(** [addEvtHandler]: the arguments that reach [evt.attach], in order. *)
Definition addEvtHandler (callback : string) (filter : option string)
    (timeout : option Z) : list (option AttachArg) :=
  let attachArgs :=
    filterTruthy [option_map ByFilter filter;
                  option_map ByTimeout timeout;
                  Some (ByCallback callback)] in
  attachArgs.

(** ** Result to and from JSON *)

(** [ResultJson] *)
Inductive ResultJson (U : Type) : Type :=
| JsonError (error : Json.t)
| JsonValue (value : option U).
Arguments JsonError {U} error.
Arguments JsonValue {U} value.

(** [toJson] *)
Definition toJson {T} (r : Result.t T Json.t) : ResultJson T :=
  if negb (Result.isError r) then JsonValue (Result.value r)
  else JsonError
         (match Result.error r with
          | Some (Json.Err message own) =>
              Json.Obj (Json.set "message" (Json.Str message) own)
          | Some e => e
          | None => Json.Undefined
          end).

(** Not an instance of [Error]. *)
Definition plain (e : Json.t) : bool :=
  match e with Json.Err _ _ => false | _ => true end.

(** [Result.fromJson] *)
Definition fromJson {U} (json : ResultJson U) : Result.t U Json.t :=
  match json with
  | JsonError error => Result.fail error
  | JsonValue value => Result.construct None value
  end.

(** ** Router fees (services/fees.ts) *)

Module Fees.

(** [FeeError.reasons] *)
Inductive FeeReason : Type :=
| ChainError
| ChannelError
| ConfigError
| ConversionError
| ExchangeRateError.

(** [new FeeError(reason, context)] *)
Record FeeError : Type := {
  reason : FeeReason;
  fee_context : list (string * Json.t)
}.

#[global] Instance FeeError_Like : Like FeeError :=
  {| truthy := fun _ => true; toString := fun _ => "Error" |}.

(** What [getSwapFees] yields; the two percentages are numbers. *)
Record SwapFees : Type := {
  flatFee : string;
  percentageFee : Z;
  gasSubsidyPercentage : Z
}.

(** The thresholds of a rebalance profile. *)
Record RebalanceProfile : Type := {
  reclaimThreshold : string;
  collateralizeThreshold : string
}.

(** ["alice" | "bob"] *)
Inductive Participant : Type :=
| alice
| bob.

(** The fields of a channel that the fee code reads. *)
Record RoutedChannel : Type := {
  rc_channelAddress : string;
  rc_chainId : Z;
  aliceIdentifier : string;
  bobIdentifier : string
}.

(** [IVectorChainReader], as far as it is used here. *)
Record IVectorChainReader : Type := {
  getCode : string -> Z -> Result.t string Json.t;
  getGasPrice : Z -> Result.t Z Json.t
}.

(** What the file imports from the configuration, the swap service, the
    metrics, the shared types and utilities, and axios.  Their bodies are
    not part of the code at hand. *)
Class Imports : Type := {
  getSwapFees : string -> Z -> string -> Z -> Result.t SwapFees Json.t;
  getRebalanceProfile : Z -> string -> Result.t RebalanceProfile Json.t;
  getSwappedAmount : string -> string -> Z -> string -> Z -> Result.t string Json.t;
  getParticipant : RoutedChannel -> string -> option Participant;
  getBalanceForAssetId : RoutedChannel -> string -> Participant -> string;
  jsonifyError : option Json.t -> Json.t;
  jsonifyFeeError : option FeeError -> Json.t;
  inverse : string -> outcome string;
  calculateExchangeWad : Z -> Z -> string -> Z -> outcome Z;
  getDecimals : string -> string -> outcome Z;
  axios_get : string -> outcome Json.t;
  gas_createChannel : Z;
  gas_createChannelAndDepositAlice : Z;
  gas_depositAlice : Z;
  gas_depositBob : Z;
  gas_withdraw : Z;
  REDUCED_GAS_PRICE : Z
}.

Definition AddressZero : string := "0x0000000000000000000000000000000000000000".

Definition fail {T} (reason : FeeReason) (context : list (string * Json.t))
  : Result.t T FeeError :=
  Result.fail {| reason := reason; fee_context := context |}.

(** [e.message] of what was caught *)
Definition messageOf (e : exn) : string :=
  match e with
  | Error m | InvalidArgument m | CallException m => m
  | EvtTimeout _ => "Evt timeout"
  | NumericFault fault _ => fault
  end.

(** [a.mul(n)] with [n] a number *)
Definition mulNumber (a n : Z) : outcome Z :=
  b <- BigNumber.fromNumber n ;; Returned (a * b).

(** [a.div(100)] *)
Definition div100 (a : Z) : Z := Z.quot a 100.

(** [a.gt(text)], [a.lt(text)], [a.gte(text)] *)
Definition gtText (a : Z) (s : option string) : outcome bool :=
  b <- BigNumber.fromSlot s ;; Returned (b <? a).

Definition ltText (a : Z) (s : option string) : outcome bool :=
  b <- BigNumber.fromSlot s ;; Returned (a <? b).

Definition gteText (a : Z) (s : option string) : outcome bool :=
  b <- BigNumber.fromSlot s ;; Returned (b <=? a).

(** [x.toString()] on a value that may be [undefined] *)
Definition bigText (x : option Z) : outcome string :=
  match x with
  | Some a => Returned (BigNumber.toString a)
  | None => Thrown (Error "TypeError: Cannot read property of undefined")
  end.

Definition jsonText (x : option Json.t) : outcome string :=
  match x with
  | Some Json.Undefined | Some Json.Null | None =>
      Thrown (Error "TypeError: Cannot read property of undefined")
  | Some v => Returned (Json.toText v)
  end.

(** [{ [k1]: v1, [k2]: v2 }] *)
Definition twoKeys (k1 : string) (v1 : Z) (k2 : string) (v2 : Z) : list (string * Z) :=
  if (k1 =? k2)%string then [(k1, v2)] else [(k1, v1); (k2, v2)].

Fixpoint lookup (k : string) (m : list (string * Z)) : option Z :=
  match m with
  | [] => None
  | (k', v) :: m' => if (k' =? k)%string then Some v else lookup k m'
  end.

(** [getExchangeRateInEth] (log calls left out, here and below). *)
Definition getExchangeRateInEth `{Imports} (tokenAddress : string)
  : outcome (Result.t Json.t FeeError) :=
  let uri := "https://api.coingecko.com/api/v3/simple/token_price/ethereum?contract_addresses="
             ++ tokenAddress ++ "&vs_currencies=eth" in
  try_catch
    (response_data <- axios_get uri ;;
     entry <- Json.index response_data tokenAddress ;;
     if negb (truthy (Json.get entry "eth"))
     then Returned (fail ExchangeRateError
                      [("message", Json.Str "Could not find rate in response");
                       ("response", response_data);
                       ("tokenAddress", Json.Str tokenAddress)])
     else
       entry <- Json.index response_data tokenAddress ;;
       rate <- Json.index entry "eth" ;;
       Returned (Result.ok rate))
    (fun e =>
       Returned (fail ExchangeRateError
                   [("message", Json.Str "Could not get exchange rate");
                    ("tokenAddress", Json.Str tokenAddress);
                    ("error", Json.Str (messageOf e))])).

(** [normalizeFee]; the first log call reads [fee.toString()]. *)
Definition normalizeFee `{Imports} (fee : option Z) (desiredFeeAssetId : string)
    (chainId : Z) (ethReader : IVectorChainReader) (gasPriceOverride : option Z)
  : outcome (Result.t Z FeeError) :=
  feeText <- bigText fee ;;
  fee <- defined fee ;;
  if negb (chainId =? 1)
  then Returned (fail ChainError
                   [("message", Json.Str "Cannot get normalize fees that are not going to mainnet");
                    ("toAssetId", Json.Str desiredFeeAssetId);
                    ("toChainId", Json.Num chainId);
                    ("fee", Json.Str feeText)])
  else
    let continue (gasPrice : option Z) : outcome (Result.t Z FeeError) :=
      gasPrice <- match gasPrice with
                  | Some g => Returned g
                  | None => Thrown (InvalidArgument "invalid BigNumber value")
                  end ;;
      let feeWithGasPrice := fee * gasPrice in
      if (desiredFeeAssetId =? AddressZero)%string
      then Returned (Result.ok feeWithGasPrice)
      else
        exchangeRateRes <- getExchangeRateInEth desiredFeeAssetId ;;
        if Result.isError exchangeRateRes
        then Returned (Result.construct (Result.getError exchangeRateRes) None)
        else
          exchangeRate <- Result.getValue exchangeRateRes ;;
          rateText <- jsonText exchangeRate ;;
          invertedRate <- inverse rateText ;;
          match (decimals <- getDecimals (decimal chainId) desiredFeeAssetId ;;
                 baseAssetDecimals <- getDecimals (decimal chainId) AddressZero ;;
                 Returned (decimals, baseAssetDecimals)) with
          | Thrown _ =>
              Returned (fail ExchangeRateError
                          [("message", Json.Str "Could not get decimals");
                           ("invertedRate", Json.Str invertedRate);
                           ("toAssetId", Json.Str desiredFeeAssetId);
                           ("toChainId", Json.Num chainId)])
          | Returned (decimals, baseAssetDecimals) =>
              feeWithGasPriceInAsset <-
                calculateExchangeWad feeWithGasPrice baseAssetDecimals invertedRate decimals ;;
              Returned (Result.ok feeWithGasPriceInAsset)
          end in
    match gasPriceOverride with
    | Some g => continue (Some g)
    | None =>
        let gasPriceRes := getGasPrice ethReader chainId in
        if Result.isError gasPriceRes
        then Returned (fail ChainError
                         [("getGasPriceError", jsonifyError (Result.getError gasPriceRes))])
        else
          gasPrice <- Result.getValue gasPriceRes ;;
          continue gasPrice
    end.

(** [calculateEstimatedGasFee] *)
Definition calculateEstimatedGasFee `{Imports} (amountToSend : Z)
    (toAssetId fromAssetId : string) (fromChannel toChannel : RoutedChannel)
    (ethReader : IVectorChainReader) (routerPublicIdentifier : string)
  : outcome (Result.t (list (string * Z)) FeeError) :=
  match getParticipant fromChannel routerPublicIdentifier with
  | None =>
      Returned (fail ChannelError
                  [("message", Json.Str "Not in channel");
                   ("publicIdentifier", Json.Str routerPublicIdentifier);
                   ("alice", Json.Str (aliceIdentifier fromChannel));
                   ("bob", Json.Str (bobIdentifier fromChannel));
                   ("channelAddress", Json.Str (rc_channelAddress fromChannel))])
  | Some participantFromChannel =>
      finalFromBalance <-
        BigNumber.add amountToSend
          (Some (getBalanceForAssetId fromChannel fromAssetId participantFromChannel)) ;;
      let fromChannelCode :=
        getCode ethReader (rc_channelAddress fromChannel) (rc_chainId fromChannel) in
      if Result.isError fromChannelCode
      then Returned (fail ChainError
                       [("fromChainId", Json.Num (rc_chainId fromChannel));
                        ("fromChannel", Json.Str (rc_channelAddress fromChannel));
                        ("getCodeError", jsonifyError (Result.getError fromChannelCode))])
      else
        let rebalanceFromProfile :=
          getRebalanceProfile (rc_chainId fromChannel) fromAssetId in
        if Result.isError rebalanceFromProfile
        then Returned (fail ConfigError
                         [("message", Json.Str "Failed to get rebalance profile");
                          ("assetId", Json.Str fromAssetId);
                          ("chainId", Json.Num (rc_chainId fromChannel));
                          ("error", jsonifyError (Result.getError rebalanceFromProfile))])
        else
          fromProfile <- Result.getValue rebalanceFromProfile ;;
          fromProfile <- defined fromProfile ;;
          reclaim <- gtText finalFromBalance (Some (reclaimThreshold fromProfile)) ;;
          fromChannelFee <-
            (if reclaim : bool
             then
               code <- Result.getValue fromChannelCode ;;
               Returned (if optstr_eqb code (Some "0x")
                         then gas_createChannel + gas_withdraw
                         else gas_withdraw)
             else
               collateralize <-
                 ltText finalFromBalance (Some (collateralizeThreshold fromProfile)) ;;
               if collateralize : bool
               then
                 match participantFromChannel with
                 | bob => Returned gas_depositBob
                 | alice =>
                     code <- Result.getValue fromChannelCode ;;
                     Returned (if optstr_eqb code (Some "0x")
                               then gas_createChannelAndDepositAlice
                               else gas_depositAlice)
                 end
               else Returned 0) ;;
          match getParticipant toChannel routerPublicIdentifier with
          | None =>
              Returned (fail ChannelError
                          [("message", Json.Str "Not in channel");
                           ("publicIdentifier", Json.Str routerPublicIdentifier);
                           ("alice", Json.Str (aliceIdentifier toChannel));
                           ("bob", Json.Str (bobIdentifier toChannel));
                           ("channelAddress", Json.Str (rc_channelAddress toChannel))])
          | Some participantToChannel =>
              let routerBalance :=
                getBalanceForAssetId toChannel toAssetId participantToChannel in
              let converted :=
                getSwappedAmount (BigNumber.toString amountToSend) fromAssetId
                  (rc_chainId fromChannel) toAssetId (rc_chainId toChannel) in
              if Result.isError converted
              then Returned (fail ConversionError
                               [("swapError", jsonifyError (Result.getError converted))])
              else
                routerBalance <- BigNumber.fromString routerBalance ;;
                convertedValue <- Result.getValue converted ;;
                collateralized <- gteText routerBalance convertedValue ;;
                if collateralized : bool
                then Returned (Result.ok
                       (twoKeys (rc_channelAddress fromChannel) fromChannelFee
                                (rc_channelAddress toChannel) 0))
                else
                  match participantToChannel with
                  | bob =>
                      Returned (Result.ok
                        (twoKeys (rc_channelAddress fromChannel) fromChannelFee
                                 (rc_channelAddress toChannel) gas_depositBob))
                  | alice =>
                      let toChannelCode :=
                        getCode ethReader (rc_channelAddress toChannel)
                                (rc_chainId toChannel) in
                      if Result.isError toChannelCode
                      then Returned (fail ChainError
                             [("toChainId", Json.Num (rc_chainId toChannel));
                              ("getCodeError", jsonifyError (Result.getError toChannelCode))])
                      else
                        code <- Result.getValue toChannelCode ;;
                        Returned (Result.ok
                          (twoKeys (rc_channelAddress fromChannel) fromChannelFee
                                   (rc_channelAddress toChannel)
                                   (if optstr_eqb code (Some "0x")
                                    then gas_createChannelAndDepositAlice
                                    else gas_depositAlice)))
                  end
          end
  end.

(** [r.isError ? jsonifyError(r.getError()) : r.getValue().toString()] *)
Definition describe `{Imports} (r : Result.t Z FeeError) : outcome Json.t :=
  if Result.isError r
  then Returned (jsonifyFeeError (Result.getError r))
  else
    v <- Result.getValue r ;;
    text <- bigText v ;;
    Returned (Json.Str text).

(** [calculateFeeAmount] *)
Definition calculateFeeAmount `{Imports} (transferAmount : Z)
    (fromAssetId : string) (fromChannel : RoutedChannel)
    (toAssetId : string) (toChannel : RoutedChannel)
    (ethReader : IVectorChainReader) (routerPublicIdentifier : string)
  : outcome (Result.t Z FeeError) :=
  let toChainId := rc_chainId toChannel in
  let fromChainId := rc_chainId fromChannel in
  let fees := getSwapFees fromAssetId fromChainId toAssetId toChainId in
  if Result.isError fees
  then Returned (fail ConfigError
                   [("getFeesError", jsonifyError (Result.getError fees))])
  else
    rates <- Result.getValue fees ;;
    rates <- defined rates ;;
    let isSwap := negb (fromChainId =? toChainId) || negb (fromAssetId =? toAssetId)%string in
    scaled <- mulNumber transferAmount (percentageFee rates) ;;
    let feeFromPercent := div100 scaled in
    staticFees <- BigNumber.add feeFromPercent (Some (flatFee rates)) ;;
    if gasSubsidyPercentage rates =? 100
    then Returned (Result.ok staticFees)
    else
      gasFeesRes <- calculateEstimatedGasFee transferAmount toAssetId fromAssetId
                      fromChannel toChannel ethReader routerPublicIdentifier ;;
      if Result.isError gasFeesRes
      then Returned (Result.construct (Result.getError gasFeesRes) None)
      else
        gasFees <- Result.getValue gasFeesRes ;;
        normalizedReclaimFromAsset <-
          (if fromChainId =? 1
           then
             gasFees <- defined gasFees ;;
             normalizeFee (lookup (rc_channelAddress fromChannel) gasFees) fromAssetId
                          fromChainId ethReader (Some REDUCED_GAS_PRICE)
           else Returned (Result.ok 0)) ;;
        normalizedCollateralToAsset <-
          (if toChainId =? 1
           then
             gasFees <- defined gasFees ;;
             normalizeFee (lookup (rc_channelAddress toChannel) gasFees) toAssetId
                          toChainId ethReader None
           else Returned (Result.ok 0)) ;;
        if Result.isError normalizedReclaimFromAsset ||
           Result.isError normalizedCollateralToAsset
        then
          described1 <- describe normalizedCollateralToAsset ;;
          described2 <- describe normalizedCollateralToAsset ;;
          Returned (fail ExchangeRateError
                      [("message", Json.Str "Could not normalize fees");
                       ("fromChainId", Json.Num fromChainId);
                       ("toChainId", Json.Num toChainId);
                       ("toAssetId", Json.Str toAssetId);
                       ("normalizedCollateralToAsset", described1);
                       ("normalizedCollateral", described2)])
        else
          collateralValue <- Result.getValue normalizedCollateralToAsset ;;
          collateralText <- bigText collateralValue ;;
          let normalizedCollateralFromAsset :=
            if isSwap
            then getSwappedAmount collateralText toAssetId toChainId fromAssetId fromChainId
            else Result.ok collateralText in
          if Result.isError normalizedCollateralFromAsset
          then
            Returned (fail ConversionError
                        [("toChainId", Json.Num toChainId);
                         ("toAssetId", Json.Str toAssetId);
                         ("fromChainId", Json.Num fromChainId);
                         ("fromAssetId", Json.Str fromAssetId);
                         ("conversionError",
                          jsonifyError (Result.getError normalizedCollateralFromAsset));
                         ("normalizedCollateralToAsset", Json.Str collateralText)])
          else
            reclaimValue <- Result.getValue normalizedReclaimFromAsset ;;
            reclaimValue <- defined reclaimValue ;;
            collateralFrom <- Result.getValue normalizedCollateralFromAsset ;;
            normalizedGasFees <- BigNumber.add reclaimValue collateralFrom ;;
            scaledGas <- mulNumber normalizedGasFees (100 - gasSubsidyPercentage rates) ;;
            let dynamic := div100 scaledGas in
            let totalFees := staticFees + dynamic in
            Returned (Result.ok totalFees).

End Fees.

(** Concrete imports and channels for the fee examples: a router that is
    alice in the sending channel and bob in the receiving one, a one-to-one
    swap, 500 of balance everywhere, and a token rate of 0.0005. *)
Module DemoFees.

Definition router : string := "vector8RouterIdentifier".
Definition token : string := "0x6b175474e89094c44da98b954eedeac495271d0f".

Definition fromChannel : Fees.RoutedChannel :=
  {| Fees.rc_channelAddress := "0xChannelA"; Fees.rc_chainId := 1;
     Fees.aliceIdentifier := router; Fees.bobIdentifier := Demo.alice |}.

Definition toChannel : Fees.RoutedChannel :=
  {| Fees.rc_channelAddress := "0xChannelB"; Fees.rc_chainId := 1;
     Fees.aliceIdentifier := Demo.bob; Fees.bobIdentifier := router |}.

Definition imports (subsidy : Z) : Fees.Imports :=
  {| Fees.getSwapFees := fun _ _ _ _ =>
       Result.ok {| Fees.flatFee := "300"; Fees.percentageFee := 1;
                    Fees.gasSubsidyPercentage := subsidy |};
     Fees.getRebalanceProfile := fun _ _ =>
       Result.ok {| Fees.reclaimThreshold := "1000"; Fees.collateralizeThreshold := "10" |};
     Fees.getSwappedAmount := fun amount _ _ _ _ => Result.ok amount;
     Fees.getParticipant := fun channel identifier =>
       if (identifier =? Fees.aliceIdentifier channel)%string then Some Fees.alice
       else if (identifier =? Fees.bobIdentifier channel)%string then Some Fees.bob
       else None;
     Fees.getBalanceForAssetId := fun _ _ _ => "500";
     Fees.jsonifyError := fun e => match e with Some x => x | None => Json.Undefined end;
     Fees.jsonifyFeeError := fun _ => Json.Obj [];
     Fees.inverse := fun rate => Returned rate;
     Fees.calculateExchangeWad := fun amount _ _ _ => Returned amount;
     Fees.getDecimals := fun _ _ => Returned 18;
     Fees.axios_get := fun _ =>
       Returned (Json.Obj [(token, Json.Obj [("eth", Json.Real "0.0005")])]);
     Fees.gas_createChannel := 200000;
     Fees.gas_createChannelAndDepositAlice := 250000;
     Fees.gas_depositAlice := 85000;
     Fees.gas_depositBob := 50000;
     Fees.gas_withdraw := 95000;
     Fees.REDUCED_GAS_PRICE := 10 |}.

Definition reader : Fees.IVectorChainReader :=
  {| Fees.getCode := fun _ _ => Result.ok "0x";
     Fees.getGasPrice := fun _ => Result.ok 40 |}.

End DemoFees.

(** The same pair of channels on a chain that is not mainnet. *)
Module DemoSidechain.

Definition fromChannel : Fees.RoutedChannel :=
  {| Fees.rc_channelAddress := "0xChannelC"; Fees.rc_chainId := 137;
     Fees.aliceIdentifier := DemoFees.router; Fees.bobIdentifier := Demo.alice |}.

Definition toChannel : Fees.RoutedChannel :=
  {| Fees.rc_channelAddress := "0xChannelD"; Fees.rc_chainId := 137;
     Fees.aliceIdentifier := Demo.bob; Fees.bobIdentifier := DemoFees.router |}.

End DemoSidechain.

(** * Properties *)

(** ** Result *)

Section ResultFacts.
Context {T Y : Type} `{Like Y}.

Lemma ok_fields (v : T) :
  @Result.ok T Y _ v = Result.mk (Some v) None false.
Proof. reflexivity. Qed.

Lemma fail_truthy_fields (e : Y) :
  truthy e = true ->
  @Result.fail T Y _ e = Result.mk None (Some e) true.
Proof.
  intros He. unfold Result.fail, Result.construct. simpl. now rewrite He.
Qed.

Lemma fail_falsy_fields (e : Y) :
  truthy e = false ->
  @Result.fail T Y _ e = Result.mk None None false.
Proof.
  intros He. unfold Result.fail, Result.construct. simpl. now rewrite He.
Qed.

End ResultFacts.

(** C9. [Result.ok v] is a success whose [getValue] returns [v].
    [Result.fail e] with [e] truthy is a failure: [getError] returns [e] and
    [getValue] throws.  [Result.fail f] with [f] falsy is a success with
    nothing in it; so it is for the empty string, for 0 and for null. *)
Theorem Result_ok_and_fail {T Y : Type} `{Like Y} (v : T) (e f : Y) :
  (Result.isError (@Result.ok T Y _ v) = false /\
   Result.getValue (@Result.ok T Y _ v) = Returned (Some v)) /\
  (truthy e = true ->
   Result.isError (@Result.fail T Y _ e) = true /\
   Result.getError (@Result.fail T Y _ e) = Some e /\
   Result.getValue (@Result.fail T Y _ e) =
     Thrown (Error ("Can't getValue() of error result: " ++ toString e))) /\
  (truthy f = false ->
   Result.isError (@Result.fail T Y _ f) = false /\
   Result.getError (@Result.fail T Y _ f) = None /\
   Result.getValue (@Result.fail T Y _ f) = Returned None) /\
  (Result.isError (@Result.fail T JS.value _ (Str "")) = false /\
   Result.isError (@Result.fail T JS.value _ (Num 0)) = false /\
   Result.isError (@Result.fail T JS.value _ Null) = false).
Proof.
  split; [split; reflexivity |].
  split; [intros He; rewrite (fail_truthy_fields e He); repeat split |].
  split; [intros Hf; rewrite (fail_falsy_fields f Hf); repeat split |].
  repeat split.
Qed.

Lemma Result_ok_and_fail_witness :
  truthy (Str "boom") = true /\ truthy (Str "") = false /\
  Result.isError (@Result.fail nat JS.value _ (Str "boom")) = true /\
  Result.isError (@Result.fail nat JS.value _ (Str "")) = false.
Proof.
  destruct (@Result_ok_and_fail nat JS.value _ 3%nat (Str "boom") (Str ""))
    as [_ [Ht [Hf _]]].
  split; [reflexivity |]. split; [reflexivity |].
  split.
  - exact (proj1 (Ht eq_refl)).
  - exact (proj1 (Hf eq_refl)).
Defined.

(** ** The bus *)

Lemma optstr_eqb_refl (a : option string) : optstr_eqb a a = true.
Proof. destruct a; simpl; [apply String.eqb_refl | reflexivity]. Qed.

(** The filter never looks at the inbox that was generated for the send,
    nor at the one the event carries. *)
Lemma replyFilter_ignores_inbox channelUpdate inbox0 inbox1 (m : Msg) (i : option string) :
  replyFilter channelUpdate inbox0 m =
  replyFilter channelUpdate inbox1
    {| to := to m; from := from m; inbox := i; data := data m; sentBy := sentBy m |}.
Proof.
  unfold replyFilter. simpl. now rewrite !optstr_eqb_refl.
Qed.

Lemma replyFilter_spec channelUpdate inbox0 (m : Msg) :
  replyFilter channelUpdate inbox0 m =
  (from m =? toIdentifier channelUpdate)%string &&
  (to m =? fromIdentifier channelUpdate)%string &&
  (sentBy m =? toIdentifier channelUpdate)%string.
Proof.
  unfold replyFilter. rewrite optstr_eqb_refl. now rewrite andb_true_r.
Qed.

Lemma sendProtocolMessage_start_eq channelUpdate previousUpdate timeout numRetries w :
  sendProtocolMessage_start channelUpdate previousUpdate timeout numRetries w =
  let inbox := entropy w (drawn w) in
  (List.length (waiters w),
   post (outbound channelUpdate previousUpdate inbox)
        (snd (waitFor (replyFilter channelUpdate inbox) (default 20000 timeout)
                      (snd (getRandomBytes32 w))))).
Proof. reflexivity. Qed.

(** [numRetries] is bound and never read. *)
Lemma numRetries_unused channelUpdate previousUpdate timeout n n' w :
  sendProtocolMessage_start channelUpdate previousUpdate timeout n w =
  sendProtocolMessage_start channelUpdate previousUpdate timeout n' w.
Proof. reflexivity. Qed.

Lemma run_app s1 s2 w : run (s1 ++ s2) w = run s2 (run s1 w).
Proof. unfold run. apply fold_left_app. Qed.

Lemma run_cons s script w : run (s :: script) w = run script (step s w).
Proof. reflexivity. Qed.

Lemma run_subscribers script w : subscribers (run script w) = subscribers w.
Proof.
  revert w. induction script as [| s script IH]; intros w; [reflexivity |].
  rewrite run_cons, IH. now destruct s.
Qed.

Lemma run_drawn script w : drawn (run script w) = drawn w.
Proof.
  revert w. induction script as [| s script IH]; intros w; [reflexivity |].
  rewrite run_cons, IH. now destruct s.
Qed.

Lemma run_posted script w :
  posted (run script w) = (posted w ++ messagesOf script)%list.
Proof.
  revert w. induction script as [| s script IH]; intros w.
  - simpl. now rewrite app_nil_r.
  - rewrite run_cons, IH. destruct s; simpl.
    + now rewrite <- app_assoc.
    + reflexivity.
Qed.

Lemma run_waiters script w :
  waiters (run script w) = map (evolve (now w) script) (waiters w).
Proof.
  revert w. induction script as [| s script IH]; intros w.
  - simpl. now rewrite map_id.
  - rewrite run_cons, IH. destruct s; simpl; now rewrite map_map.
Qed.

Lemma run_delivered ms w :
  delivered (run (map Post ms) w) =
  (delivered w ++
   flat_map (fun m => map (invoke m) (filter (addressed m) (subscribers w))) ms)%list.
Proof.
  revert w. induction ms as [| m ms IH]; intros w.
  - simpl. now rewrite app_nil_r.
  - simpl map. rewrite run_cons, IH. simpl. now rewrite <- app_assoc.
Qed.

(** C10. The handler registered by [onReceiveProtocolMessage] is called for
    exactly the posted events whose [to] is the subscriber's identifier, and
    what it is given is always [Result.ok] of the event's [update] and
    [previousUpdate]: a success, also for an event that carries only an
    error, whose [update] is then undefined. *)
Theorem onReceiveProtocolMessage_delivery
    (me cb : string) (m : Msg) (ms : list Msg) (w : World) (entropy : nat -> string)
    (updateToIdentifier inbox0 : string) (e : InboundChannelUpdateError) :
  let sub := {| myPublicIdentifier := me; callback := cb |} in
  delivered (post m (onReceiveProtocolMessage me cb w)) =
    (delivered (post m w) ++ (if (to m =? me)%string then [invoke m sub] else []))%list /\
  delivered (run (map Post ms) (onReceiveProtocolMessage me cb (newService entropy))) =
    map (fun m => invoke m sub) (filter (fun m => (to m =? me)%string) ms) /\
  (Result.isError (call_result (invoke m sub)) = false /\
   Result.getValue (call_result (invoke m sub)) =
     Returned (Some {| p_update := update (data m);
                       p_previousUpdate := previousUpdate (data m) |}) /\
   call_from (invoke m sub) = from m /\
   call_inbox (invoke m sub) = inbox m) /\
  delivered (respondWithProtocolError me updateToIdentifier inbox0 e
               (onReceiveProtocolMessage me cb (newService entropy))) =
    [{| callee := cb;
        call_result := Result.mk (Some {| p_update := None; p_previousUpdate := None |})
                                 None false;
        call_from := updateToIdentifier;
        call_inbox := Some inbox0 |}].
Proof.
  intros sub. split; [| split; [| split]].
  - simpl. rewrite filter_app, map_app, app_assoc. simpl.
    unfold addressed at 2. simpl. now destruct (to m =? me)%string.
  - rewrite run_delivered. simpl.
    induction ms as [| m' ms IH]; [reflexivity |].
    simpl. unfold addressed at 1. simpl.
    destruct (to m' =? me)%string; simpl; now rewrite IH.
  - repeat split.
  - simpl. unfold addressed. simpl. now rewrite String.eqb_refl.
Qed.

Lemma onReceiveProtocolMessage_delivery_witness :
  delivered (run (map Post [outbound Demo.updateA None "inbox-0";
                            outbound Demo.updateB None "inbox-1"])
                 (onReceiveProtocolMessage Demo.bob "onUpdate" Demo.service)) =
  map (fun m => invoke m {| myPublicIdentifier := Demo.bob; callback := "onUpdate" |})
      [outbound Demo.updateA None "inbox-0"; outbound Demo.updateB None "inbox-1"].
Proof.
  exact (proj1 (proj2 (onReceiveProtocolMessage_delivery
    Demo.bob "onUpdate" (outbound Demo.updateA None "inbox-0")
    [outbound Demo.updateA None "inbox-0"; outbound Demo.updateB None "inbox-1"]
    Demo.service Demo.inboxes Demo.alice "inbox-0" Demo.staleUpdate))).
Defined.




(** C1. Two rounds are open on two channels, with inboxes "inbox-0" and
    "inbox-1".  The counterparty answers the second one, on "inbox-1".  The
    first round takes that answer as its own reply and returns the other
    channel's update: the filter compares the event's inbox with itself, not
    with the inbox generated for the send. *)
Theorem sendProtocolMessage_cross_delivery :
  let '(roundA, w1) := sendProtocolMessage_start Demo.updateA None None None Demo.service in
  let '(roundB, w2) := sendProtocolMessage_start Demo.updateB None None None w1 in
  let w3 := respondToProtocolMessage Demo.bob Demo.updateB "inbox-1" None w2 in
  map inbox (posted w3) = [Some "inbox-0"; Some "inbox-1"; Some "inbox-1"] /\
  sendProtocolMessage_finish roundA w3 =
    Some (Returned (Result.ok {| p_update := Some Demo.updateB;
                                 p_previousUpdate := None |})) /\
  fst (sendProtocolMessage Demo.updateA None None None
         (respondToProtocolMessage Demo.bob Demo.updateB "not-the-generated-inbox" None)
         Demo.service) =
    Some (Returned (Result.ok {| p_update := Some Demo.updateB;
                                 p_previousUpdate := None |})).
Proof. repeat split. Qed.

(** ** Timeouts *)

Lemma offer_settled m h : promise h <> Pending -> offer m h = h.
Proof. unfold offer. destruct (promise h); congruence. Qed.

Lemma expire_settled t h : promise h <> Pending -> expire t h = h.
Proof. unfold expire. destruct (promise h); congruence. Qed.

Lemma evolve_settled script : forall t h,
  promise h <> Pending -> evolve t script h = h.
Proof.
  induction script as [| [m | dt] script IH]; intros t h Hh; simpl.
  - reflexivity.
  - rewrite (offer_settled m h Hh). now apply IH.
  - rewrite (expire_settled _ h Hh). now apply IH.
Qed.

(** A pending handler that is offered nothing it accepts is rejected once
    the clock has reached its deadline. *)
Lemma evolve_timeout script : forall t h,
  promise h = Pending ->
  Forall (fun m => accepts h m = false) (messagesOf script) ->
  forallb forward script = true ->
  t < deadline h ->
  deadline h <= t + elapsed script ->
  promise (evolve t script h) = Rejected (EvtTimeout (timeout_ms h)).
Proof.
  induction script as [| [m | dt] script IH]; intros t h Hp Hm Hf Ht Hd; simpl in *.
  - lia.
  - inversion Hm as [| ? ? Hm0 Hm']; subst.
    assert (Ho : offer m h = h) by (unfold offer; now rewrite Hp, Hm0).
    rewrite Ho. now apply IH.
  - apply andb_prop in Hf. destruct Hf as [Hdt Hf].
    apply Z.leb_le in Hdt.
    unfold expire at 1. rewrite Hp.
    destruct (deadline h <=? t + dt) eqn:Hle.
    + rewrite evolve_settled; [reflexivity | simpl; discriminate].
    + apply Z.leb_gt in Hle. apply IH; auto. lia.
Qed.

(** C3, as the code has it.  A send whose own event is not its reply and
    which is offered no event its filter accepts before [timeout] ms have
    passed does not return: the promise it awaits is rejected with evt's
    timeout error, and the call throws it.  Whatever [numRetries] is, the
    call draws one inbox and posts one event. *)
Theorem sendProtocolMessage_timeout
    (channelUpdate : ChannelUpdate) (previousUpdate0 : option ChannelUpdate)
    (timeout numRetries : option Z) (script : list Step) (w : World) :
  fromIdentifier channelUpdate <> toIdentifier channelUpdate ->
  Forall (fun m => replyFilter channelUpdate (entropy w (drawn w)) m = false)
         (messagesOf script) ->
  forallb forward script = true ->
  0 < default 20000 timeout <= elapsed script ->
  let r := sendProtocolMessage channelUpdate previousUpdate0 timeout numRetries
                               (run script) w in
  fst r = Some (Thrown (EvtTimeout (default 20000 timeout))) /\
  posted (snd r) =
    (posted w ++ outbound channelUpdate previousUpdate0 (entropy w (drawn w))
              :: messagesOf script)%list /\
  drawn (snd r) = S (drawn w).
Proof.
  intros Hself Hm Hf [Hpos Hd] r. subst r.
  unfold sendProtocolMessage. rewrite sendProtocolMessage_start_eq.
  cbv zeta. cbn [fst snd].
  set (inbox0 := entropy w (drawn w)) in *.
  set (w1 := post _ _).
  split; [| split].
  - unfold sendProtocolMessage_finish. rewrite run_waiters.
    rewrite nth_error_map.
    assert (Hown : replyFilter channelUpdate inbox0
                     (outbound channelUpdate previousUpdate0 inbox0) = false).
    { rewrite replyFilter_spec. simpl.
      apply String.eqb_neq in Hself. now rewrite Hself. }
    assert (Hk : nth_error (waiters w1) (List.length (waiters w)) =
                 Some {| accepts := replyFilter channelUpdate inbox0;
                         timeout_ms := default 20000 timeout;
                         deadline := now w + default 20000 timeout;
                         promise := Pending |}).
    { subst w1. simpl. rewrite map_app. simpl.
      rewrite nth_error_app2; rewrite length_map; [| lia].
      rewrite Nat.sub_diag. simpl. unfold offer. simpl. now rewrite Hown. }
    rewrite Hk. simpl.
    rewrite evolve_timeout; simpl; auto; subst w1; simpl; lia.
  - rewrite run_posted. subst w1. simpl. now rewrite <- app_assoc.
  - rewrite run_drawn. reflexivity.
Qed.

Lemma sendProtocolMessage_timeout_witness :
  fst (sendProtocolMessage Demo.updateA None (Some 5000) (Some 3)
         (run [Post (outbound Demo.updateB None "inbox-9"); Advance 5000])
         Demo.service) = Some (Thrown (EvtTimeout 5000)).
Proof.
  apply (sendProtocolMessage_timeout Demo.updateA None (Some 5000) (Some 3)
           [Post (outbound Demo.updateB None "inbox-9"); Advance 5000] Demo.service).
  - discriminate.
  - repeat constructor.
  - reflexivity.
  - simpl. lia.
Defined.

(** Against C3 as stated: with [numRetries] 1 and nothing answering, the call
    throws instead of returning a failed result, and it has sent once. *)
Lemma timeout_is_thrown_counterexample :
  let r := sendProtocolMessage Demo.updateA None (Some 20000) (Some 1)
                               (advance 20000) Demo.service in
  fst r = Some (Thrown (EvtTimeout 20000)) /\
  (forall res, fst r <> Some (Returned res)) /\
  List.length (posted (snd r)) = 1%nat /\
  drawn (snd r) = 1%nat.
Proof.
  cbv zeta. split; [reflexivity |]. split; [| split; reflexivity].
  intros res. discriminate.
Qed.

(** ** Signatures *)

Section Signatures.
Context `{VectorUtils}.

Lemma truthy_sig_false (s : string) : truthy s = false <-> s = "".
Proof.
  simpl. destruct (String.eqb_spec s ""); simpl; split; congruence.
Qed.

(** The checks settle as the slots say: the first rejecting slot rejects
    the whole; with none, the signatures that survive are those of the
    valid slots. *)
Lemma checked_settles state sigs : forall k,
  match firstSome (map (slotFault state) (combine (seq k (List.length sigs)) sigs)) with
  | Some e =>
      awaitAll (map fst
        (mapi_from k (verifySlot (participants state)
                        (hashChannelCommitment (commitment state []))) sigs)) = Thrown e
  | None =>
      exists settled,
        awaitAll (map fst
          (mapi_from k (verifySlot (participants state)
                          (hashChannelCommitment (commitment state []))) sigs)) =
          Returned settled /\
        List.length (filterTruthy settled) =
        List.length (filter (slotValid state) (combine (seq k (List.length sigs)) sigs))
  end.
Proof.
  induction sigs as [| sig sigs IH]; intros k.
  - simpl. exists []. split; reflexivity.
  - specialize (IH (S k)). simpl.
    unfold verifySlot at 1 3, slotFault at 1, slotValid at 1. simpl.
    destruct sig as [s |]; simpl.
    + destruct (s =? "")%string eqn:Hs; simpl.
      * destruct (firstSome _) as [e |].
        -- now rewrite IH.
        -- destruct IH as [settled [Ha Hl]]. exists (None :: settled).
           rewrite Ha. split; [reflexivity | exact Hl].
      * destruct (recoverAddressFromChannelMessage _ s) as [recovered | e]; simpl.
        -- destruct (firstSome _) as [e |].
           ++ now rewrite IH.
           ++ destruct IH as [settled [Ha Hl]]. rewrite Ha.
              eexists. split; [reflexivity |].
              unfold filterTruthy in *. simpl.
              destruct (nth_error (participants state) k) as [p |]; simpl; [| exact Hl].
              destruct (recovered =? p)%string; simpl; [| exact Hl].
              rewrite Hs. simpl. f_equal. exact Hl.
        -- reflexivity.
    + destruct (firstSome _) as [e |].
      * now rewrite IH.
      * destruct IH as [settled [Ha Hl]]. exists (None :: settled).
        rewrite Ha. split; [reflexivity | exact Hl].
Qed.

Lemma valid_le_present state sigs : (validCount state sigs <= presentCount sigs)%nat.
Proof.
  unfold validCount, presentCount, slots. generalize 0%nat.
  induction sigs as [| sig sigs IH]; intros k; [reflexivity |].
  simpl. unfold slotValid at 1. simpl.
  destruct sig as [s |]; simpl.
  - destruct (s =? "")%string; simpl.
    + apply IH.
    + destruct (nth_error (participants state) k) as [p |]; simpl.
      * destruct (recoverAddressFromChannelMessage _ s) as [recovered | e]; simpl.
        -- destruct (recovered =? p)%string; simpl;
             [apply le_n_S | apply Nat.le_le_succ_r]; apply IH.
        -- apply Nat.le_le_succ_r, IH.
      * apply Nat.le_le_succ_r, IH.
  - apply IH.
Qed.

Lemma validate_eq state sigs requiredSigs :
  fst (validateChannelUpdateSignatures state sigs requiredSigs) =
  let required := default 1%nat requiredSigs in
  if (presentCount sigs <? required)%nat
  then Returned (Some (onlyOf (presentCount sigs) required " signatures present"))
  else match firstFault state sigs with
       | Some e => Thrown e
       | None =>
           if (validCount state sigs <? required)%nat
           then Returned (Some (onlyOf (validCount state sigs) required
                                       " are valid signatures"))
           else Returned None
       end.
Proof.
  unfold validateChannelUpdateSignatures, presentCount, filterTruthy. cbv zeta.
  destruct (_ <? _)%nat; [reflexivity |].
  unfold mapi, firstFault, validCount, slots. cbn [fst].
  pose proof (checked_settles state sigs 0) as Hc.
  destruct (firstSome _) as [e |].
  - now rewrite Hc.
  - destruct Hc as [settled [Ha Hl]]. rewrite Ha.
    unfold filterTruthy in Hl. rewrite Hl.
    now destruct (_ <? _)%nat.
Qed.

Lemma findIndex_NoDup (a : string) (ps : list string) : forall i,
  NoDup ps -> nth_error ps i = Some a ->
  findIndex (fun p => (p =? a)%string) ps = Z.of_nat i.
Proof.
  induction ps as [| p ps IH]; intros i Hnd Hi.
  - destruct i; discriminate.
  - inversion Hnd as [| ? ? Hnotin Hnd']; subst. simpl.
    destruct i as [| i]; simpl in Hi.
    + injection Hi as ->. now rewrite String.eqb_refl.
    + destruct (String.eqb_spec p a) as [-> | Hne].
      * exfalso. apply Hnotin. eapply nth_error_In; eauto.
      * rewrite (IH i Hnd' Hi).
        destruct (Z.of_nat i <? 0) eqn:Hneg; [apply Z.ltb_lt in Hneg; lia | lia].
Qed.

End Signatures.

(** C4, as the code has it.  With [required] the number of signatures asked
    for: fewer than [required] non-empty entries are rejected, before any
    recovery; otherwise, when the recovery of a non-empty slot rejects, the
    call throws that rejection (the lowest such slot's); otherwise fewer than
    [required] valid slots (a slot is valid when it holds a non-empty
    signature that recovers to the participant of the same index) are
    rejected; and there is no error exactly when no recovery rejects and at
    least [required] slots are valid.  A non-empty slot that recovers to
    someone other than its participant is not counted, and is not by itself
    a reason to reject. *)
Theorem validateChannelUpdateSignatures_counts (U : VectorUtils)
    (state : FullChannelState) (sigs : list (option string)) (requiredSigs : option nat)
    (e : exn) :
  let required := default 1%nat requiredSigs in
  let verdict := fst (validateChannelUpdateSignatures state sigs requiredSigs) in
  ((presentCount sigs < required)%nat ->
   verdict = Returned (Some (onlyOf (presentCount sigs) required " signatures present")) /\
   snd (validateChannelUpdateSignatures state sigs requiredSigs) = []) /\
  ((required <= presentCount sigs)%nat -> firstFault state sigs = Some e ->
   verdict = Thrown e) /\
  ((required <= presentCount sigs)%nat -> firstFault state sigs = None ->
   (validCount state sigs < required)%nat ->
   verdict = Returned (Some (onlyOf (validCount state sigs) required
                                    " are valid signatures"))) /\
  (verdict = Returned None <->
   firstFault state sigs = None /\ (required <= validCount state sigs)%nat).
Proof.
  intros required verdict. subst verdict. rewrite validate_eq. cbv zeta.
  fold required. pose proof (valid_le_present state sigs) as Hle.
  destruct (Nat.ltb_spec (presentCount sigs) required) as [Hp | Hp].
  - split; [| split; [lia | split; [lia |]]].
    + intros _. split; [reflexivity |].
      unfold validateChannelUpdateSignatures. cbv zeta. fold required.
      change (presentCount sigs) with (List.length (filterTruthy sigs)) in Hp.
      apply Nat.ltb_lt in Hp. now rewrite Hp.
    + split; [discriminate | lia].
  - split; [lia |].
    destruct (firstFault state sigs) as [e' |].
    + split; [now intros _ [= ->] |]. split; [discriminate |].
      split; [discriminate | intros [Hf _]; discriminate].
    + split; [discriminate |].
      destruct (Nat.ltb_spec (validCount state sigs) required) as [Hv | Hv].
      * split; [reflexivity |]. split; [discriminate | lia].
      * split; [lia |]. split; [intros _; split; [reflexivity | lia] | reflexivity].
Qed.

Lemma validateChannelUpdateSignatures_counts_witness :
  (1 <= presentCount [Some Demo.sigAlice; Some "not a signature"])%nat /\
  @firstFault Demo.utils Demo.state [Some Demo.sigAlice; Some "not a signature"] =
    Some (InvalidArgument "invalid signature") /\
  fst (@validateChannelUpdateSignatures Demo.utils Demo.state
         [Some Demo.sigAlice; Some "not a signature"] (Some 1%nat)) =
    Thrown (InvalidArgument "invalid signature") /\
  fst (@validateChannelUpdateSignatures Demo.utils Demo.state
         [Some Demo.sigAlice; Some Demo.sigAlice] (Some 2%nat)) =
    Returned (Some "Only 1/2 are valid signatures").
Proof.
  split; [vm_compute; lia |]. split; [reflexivity |]. split.
  - apply (proj1 (proj2 (validateChannelUpdateSignatures_counts Demo.utils Demo.state
             [Some Demo.sigAlice; Some "not a signature"] (Some 1%nat)
             (InvalidArgument "invalid signature")))).
    + vm_compute. lia.
    + reflexivity.
  - apply (proj1 (proj2 (proj2 (validateChannelUpdateSignatures_counts Demo.utils
             Demo.state [Some Demo.sigAlice; Some Demo.sigAlice] (Some 2%nat)
             (InvalidArgument "invalid signature"))))).
    + vm_compute. lia.
    + reflexivity.
    + vm_compute. lia.
Defined.

(** Against C4 as stated: one signature is asked for and alice's signature
    sits in both slots; slot 1 is non-empty and recovers to alice, not to
    [participants[1]], yet no error is returned. *)
Lemma wrong_slot_accepted_counterexample :
  let sigs := [Some Demo.sigAlice; Some Demo.sigAlice] in
  nth_error sigs 1 = Some (Some Demo.sigAlice) /\
  Demo.sigAlice <> "" /\
  @recoverAddressFromChannelMessage Demo.utils
    (@hashChannelCommitment Demo.utils (commitment Demo.state [])) Demo.sigAlice
    = Returned Demo.aliceAddress /\
  nth_error (participants Demo.state) 0 = Some Demo.aliceAddress /\
  nth_error (participants Demo.state) 1 = Some Demo.bobAddress /\
  Demo.aliceAddress <> Demo.bobAddress /\
  fst (@validateChannelUpdateSignatures Demo.utils Demo.state sigs (Some 1%nat)) =
    Returned None.
Proof.
  cbv zeta. repeat split; try reflexivity; discriminate.
Qed.

(** C5. When the provided signatures are not already two, and the signer's
    address is [participants[i]] of a channel whose participants are
    distinct, the signature made over the commitment digest is in slot [i]
    of the returned commitment and the first non-empty provided signature
    (undefined if there is none) is in the other slot.  When both provided
    signatures are non-empty, the commitment carries them as they are and
    nothing is signed. *)
Theorem generateSignedChannelCommitment_slots (U : VectorUtils)
    (newState : FullChannelState) (signer : IChannelSigner)
    (updateSignatures : list (option string)) (i : nat) :
  let digest := hashChannelCommitment (commitment newState []) in
  let sig := signMessage signer digest in
  let result := generateSignedChannelCommitment newState signer updateSignatures in
  (List.length (filterTruthy updateSignatures) <> 2%nat ->
   NoDup (participants newState) ->
   (i < 2)%nat ->
   nth_error (participants newState) i = Some (address signer) ->
   fst result = commitment newState (c_signatures (fst result)) /\
   List.length (c_signatures (fst result)) = 2%nat /\
   nth_error (c_signatures (fst result)) i = Some (Some sig) /\
   nth_error (c_signatures (fst result)) (1 - i) =
     Some (hd None (filterTruthy updateSignatures)) /\
   snd result = [digest]) /\
  (List.length updateSignatures = 2%nat ->
   Forall (fun s => truthy s = true) updateSignatures ->
   result = (commitment newState updateSignatures, [])).
Proof.
  intros digest sig result. subst result.
  unfold generateSignedChannelCommitment. cbv zeta. split.
  - intros Hlen Hnd Hi Hp.
    apply Nat.eqb_neq in Hlen. rewrite Hlen.
    rewrite (findIndex_NoDup (address signer) (participants newState) i Hnd Hp).
    destruct i as [| [| i]]; [| | lia]; simpl; repeat split.
  - intros Hlen Hall.
    assert (Hf : filterTruthy updateSignatures = updateSignatures).
    { unfold filterTruthy. apply forallb_filter_id.
      apply forallb_forall. now apply Forall_forall. }
    rewrite Hf, Hlen. reflexivity.
Qed.

Lemma generateSignedChannelCommitment_slots_witness :
  c_signatures (fst (@generateSignedChannelCommitment Demo.utils Demo.state
                      (Demo.signerOf Demo.bobAddress) [Some Demo.sigAlice; None])) =
    [Some Demo.sigAlice; Some Demo.sigBob] /\
  @generateSignedChannelCommitment Demo.utils Demo.state
     (Demo.signerOf Demo.bobAddress) [Some Demo.sigAlice; Some Demo.sigBob] =
    (commitment Demo.state [Some Demo.sigAlice; Some Demo.sigBob], []).
Proof.
  pose proof (generateSignedChannelCommitment_slots Demo.utils Demo.state
                (Demo.signerOf Demo.bobAddress) [Some Demo.sigAlice; None] 1%nat) as [Hone _].
  pose proof (generateSignedChannelCommitment_slots Demo.utils Demo.state
                (Demo.signerOf Demo.bobAddress)
                [Some Demo.sigAlice; Some Demo.sigBob] 1%nat) as [_ Hboth].
  split.
  - assert (Hnd : NoDup (participants Demo.state)).
    { repeat constructor; simpl; intuition discriminate. }
    specialize (Hone ltac:(vm_compute; discriminate) Hnd ltac:(lia) eq_refl).
    reflexivity.
  - apply Hboth; [reflexivity | repeat constructor].
Defined.

(** C6. What is signed and what is verified against is the digest of
    [{chainId, state, adjudicatorAddress, signatures: []}], where [chainId]
    and [adjudicatorAddress] are those of the state's network context and
    [state] holds every field of the channel state but [publicIdentifiers]
    and [networkContext].  Whatever signatures are passed in: signing hands
    the signer that digest and no other (and nothing when two signatures are
    already there); validation, once enough signatures are present, hands
    the recovery that digest with each non-empty signature; the returned
    commitment has the same three fields; and both functions give the same
    answers under any other hash that agrees with this one on commitments
    without signatures. *)
Theorem commitment_digest_excludes_signatures (U : VectorUtils)
    (state : FullChannelState) (signer : IChannelSigner)
    (sigs1 sigs2 : list (option string)) (requiredSigs : option nat) :
  let preimage :=
    {| c_chainId := chainId (networkContext state);
       c_state := {| core_channelAddress := channelAddress state;
                     core_participants := participants state;
                     core_timeout := timeout state;
                     core_balances := balances state;
                     core_lockedBalance := lockedBalance state;
                     core_assetIds := assetIds state;
                     core_nonce := nonce state;
                     core_latestDepositNonce := latestDepositNonce state;
                     core_merkleRoot := merkleRoot state;
                     core_latestUpdate := latestUpdate state |};
       c_adjudicatorAddress := adjudicatorAddress (networkContext state);
       c_signatures := [] |} in
  let digest := hashChannelCommitment preimage in
  (snd (generateSignedChannelCommitment state signer sigs1) =
     if (List.length (filterTruthy sigs1) =? 2)%nat then [] else [digest]) /\
  (snd (validateChannelUpdateSignatures state sigs1 requiredSigs) =
     if (presentCount sigs1 <? default 1%nat requiredSigs)%nat then []
     else map (fun sig => (digest, sig)) (presentSignatures sigs1)) /\
  (fst (generateSignedChannelCommitment state signer sigs1) =
     {| c_chainId := c_chainId preimage;
        c_state := c_state preimage;
        c_adjudicatorAddress := c_adjudicatorAddress preimage;
        c_signatures :=
          c_signatures (fst (generateSignedChannelCommitment state signer sigs1)) |}) /\
  Forall (fun d => d = digest) (digestsUsed state signer sigs1 requiredSigs) /\
  Forall (fun d => d = digest) (digestsUsed state signer sigs2 requiredSigs) /\
  (forall d1 d2,
     In d1 (digestsUsed state signer sigs1 requiredSigs) ->
     In d2 (digestsUsed state signer sigs2 requiredSigs) -> d1 = d2) /\
  (forall U' : VectorUtils,
     (forall c, c_signatures c = [] ->
                @hashChannelCommitment U c = @hashChannelCommitment U' c) ->
     (forall d s, @recoverAddressFromChannelMessage U d s =
                  @recoverAddressFromChannelMessage U' d s) ->
     @generateSignedChannelCommitment U state signer sigs1 =
       @generateSignedChannelCommitment U' state signer sigs1 /\
     @validateChannelUpdateSignatures U state sigs1 requiredSigs =
       @validateChannelUpdateSignatures U' state sigs1 requiredSigs).
Proof.
  intros preimage digest.
  assert (Hpre : commitment state [] = preimage) by reflexivity.
  assert (Hstarted : forall sigs k,
            List.concat (map snd
              (mapi_from k (verifySlot (participants state) digest) sigs)) =
            map (fun sig => (digest, sig)) (presentSignatures sigs)).
  { induction sigs as [| sig sigs IH]; intros k; [reflexivity |].
    simpl. rewrite map_app, IH. f_equal.
    unfold verifySlot. destruct sig as [s |]; [| reflexivity].
    simpl. now destruct (s =? "")%string. }
  assert (Hsign : forall sigs,
            snd (generateSignedChannelCommitment state signer sigs) =
            if (List.length (filterTruthy sigs) =? 2)%nat then [] else [digest]).
  { intros sigs. unfold generateSignedChannelCommitment. cbv zeta. rewrite Hpre.
    fold digest. now destruct (_ =? _)%nat. }
  assert (Hverify : forall sigs,
            snd (validateChannelUpdateSignatures state sigs requiredSigs) =
            if (presentCount sigs <? default 1%nat requiredSigs)%nat then []
            else map (fun sig => (digest, sig)) (presentSignatures sigs)).
  { intros sigs. unfold validateChannelUpdateSignatures. cbv zeta. rewrite Hpre.
    fold digest.
    change (List.length (filterTruthy sigs)) with (presentCount sigs).
    destruct (_ <? _)%nat; [reflexivity |].
    cbn [snd]. unfold mapi. apply Hstarted. }
  assert (Hused : forall sigs,
            Forall (fun d => d = digest) (digestsUsed state signer sigs requiredSigs)).
  { intros sigs. unfold digestsUsed. rewrite Hsign, Hverify. apply Forall_app. split.
    - destruct (_ =? _)%nat; repeat constructor.
    - destruct (_ <? _)%nat; [constructor |].
      rewrite map_map. simpl. apply Forall_forall. intros d Hd.
      apply in_map_iff in Hd. now destruct Hd as [x [<- _]]. }
  split; [apply Hsign |]. split; [apply Hverify |]. split.
  { unfold generateSignedChannelCommitment. cbv zeta.
    destruct (_ =? _)%nat; reflexivity. }
  split; [apply Hused |]. split; [apply Hused |]. split.
  - intros d1 d2 H1 H2.
    pose proof (proj1 (Forall_forall _ _) (Hused sigs1) d1 H1).
    pose proof (proj1 (Forall_forall _ _) (Hused sigs2) d2 H2).
    congruence.
  - intros U' Hhash Hrec. split.
    + unfold generateSignedChannelCommitment. cbv zeta.
      now rewrite (Hhash (commitment state []) eq_refl).
    + unfold validateChannelUpdateSignatures. cbv zeta.
      rewrite (Hhash (commitment state []) eq_refl).
      assert (Hslot : forall k,
                mapi_from k (@verifySlot U (participants state)
                               (@hashChannelCommitment U' (commitment state []))) sigs1 =
                mapi_from k (@verifySlot U' (participants state)
                               (@hashChannelCommitment U' (commitment state []))) sigs1).
      { clear Hsign Hverify Hused Hstarted.
        induction sigs1 as [| sig sigs IH]; intros k; [reflexivity |].
        simpl. rewrite IH. f_equal.
        unfold verifySlot. destruct sig as [s |]; [| reflexivity].
        now rewrite Hrec. }
      unfold mapi. now rewrite Hslot.
Qed.

Lemma commitment_digest_excludes_signatures_witness :
  snd (@generateSignedChannelCommitment Demo.utils Demo.state
         (Demo.signerOf Demo.bobAddress) [Some Demo.sigAlice; None]) =
    ["digest(1,0xChannelA,1,0xAdjudicator)"] /\
  snd (@validateChannelUpdateSignatures Demo.utils Demo.state
         [Some Demo.sigAlice; None] (Some 1%nat)) =
    [("digest(1,0xChannelA,1,0xAdjudicator)", Demo.sigAlice)] /\
  Forall (fun d => d = "digest(1,0xChannelA,1,0xAdjudicator)")
    (@digestsUsed Demo.utils Demo.state (Demo.signerOf Demo.bobAddress)
       [None; Some Demo.sigBob] (Some 1%nat)).
Proof.
  pose proof (commitment_digest_excludes_signatures
    Demo.utils Demo.state (Demo.signerOf Demo.bobAddress)
    [Some Demo.sigAlice; None] [None; Some Demo.sigBob] (Some 1%nat))
    as [H1 [H2 [_ [_ [H3 _]]]]].
  split; [exact H1 |]. split; [exact H2 | exact H3].
Defined.

(** ** Transfers *)

Section Transfers.
Context `{TransferRuntime}.

(** Without bytecode, [create] asks the contract at the transfer's
    [transferId]. *)
Lemma create_onchain (transfer : FullTransferState) :
  create transfer None =
  (encodedState <- abi_encode [nth_error (transferEncodings transfer) 0]
                              [transferState transfer] ;;
   call_create (transferId transfer) encodedState).
Proof. reflexivity. Qed.

(** Without bytecode, [resolve] asks the contract at the transfer's
    [transferDefinition]. *)
Lemma resolve_onchain (transfer : FullTransferState) :
  resolve transfer None =
  (encodedState <- abi_encode [nth_error (transferEncodings transfer) 0]
                              [transferState transfer] ;;
   encodedResolver <- abi_encode [nth_error (transferEncodings transfer) 1]
                                 [transferResolver transfer] ;;
   ret <- call_resolve (transferDefinition transfer) encodedState encodedResolver ;;
   Returned {| rb_to := ret_to ret;
               rb_amount := map (fun a => Text (decimal a)) (ret_amount ret) |}).
Proof. reflexivity. Qed.

(** With bytecode, a local run that throws anywhere (encoding the call,
    running the machine, decoding the output) gives way to the call on
    chain; one that returns is the answer. *)
Lemma create_local (transfer : FullTransferState) (code encodedState : string) :
  truthy code = true ->
  abi_encode [nth_error (transferEncodings transfer) 0] [transferState transfer]
    = Returned encodedState ->
  create transfer (Some code) =
  match (data <- encodeFunctionData "create" [encodedState] ;;
         output <- execEvmBytecode code data ;;
         decodeCreateResult output) with
  | Returned accepted => Returned accepted
  | Thrown _ => call_create (transferId transfer) encodedState
  end.
Proof.
  intros Hc He. unfold create. rewrite He. simpl bind.
  simpl in Hc. simpl. rewrite Hc. reflexivity.
Qed.

Lemma resolve_local (transfer : FullTransferState) (code encodedState encodedResolver : string) :
  truthy code = true ->
  abi_encode [nth_error (transferEncodings transfer) 0] [transferState transfer]
    = Returned encodedState ->
  abi_encode [nth_error (transferEncodings transfer) 1] [transferResolver transfer]
    = Returned encodedResolver ->
  resolve transfer (Some code) =
  match (data <- encodeFunctionData "resolve" [encodedState; encodedResolver] ;;
         output <- execEvmBytecode code data ;;
         decodeResolveResult output) with
  | Returned ret => Returned {| rb_to := ret_to ret; rb_amount := map Big (ret_amount ret) |}
  | Thrown _ => resolve transfer None
  end.
Proof.
  intros Hc He Hr. unfold resolve. rewrite He, Hr. simpl bind.
  simpl in Hc. simpl. rewrite Hc. unfold try_catch, bind.
  destruct (encodeFunctionData _ _); [| reflexivity].
  destruct (execEvmBytecode _ _); [| reflexivity].
  now destruct (decodeResolveResult _).
Qed.

End Transfers.

(** C7. The transfer's definition is deployed at [transferDefinition] and
    nothing is deployed at its [transferId].  [resolve] asks the contract at
    [transferDefinition] and gets the balance; [create], without bytecode or
    after the local run has failed, asks the contract at [transferId], and
    the call fails, although the definition's [create] accepts the state. *)
Theorem create_asks_transferId :
  transferId Demo.transfer <> transferDefinition Demo.transfer /\
  @call_create Demo.runtime (transferDefinition Demo.transfer) "0xencoded" = Returned true /\
  @create Demo.runtime Demo.transfer None =
    @call_create Demo.runtime (transferId Demo.transfer) "0xencoded" /\
  @create Demo.runtime Demo.transfer None =
    Thrown (CallException "call exception: no contract at address") /\
  @create Demo.runtime Demo.transfer (Some "0x6080") =
    Thrown (CallException "call exception: no contract at address") /\
  @resolve Demo.runtime Demo.transfer (Some "0x6080") =
    Returned {| rb_to := [Demo.aliceAddress; Demo.bobAddress];
                rb_amount := [Text "0"; Text "40"] |}.
Proof.
  split; [discriminate |]. repeat split.
Qed.

(** ** Deposits *)

Lemma fromString_toString (z : Z) :
  BigNumber.fromString (BigNumber.toString z) = Returned z.
Proof.
  unfold BigNumber.fromString, BigNumber.toString, decimal.
  rewrite NilZero.isi.
  - now rewrite DecimalZ.of_to.
  - destruct z; simpl; try discriminate.
    intros [= Hp]. now apply Unsigned.to_uint_nonnil in Hp.
  - destruct z; simpl; try discriminate.
    intros [= Hp]. now apply Unsigned.to_uint_nonnil in Hp.
Qed.

Lemma fromNumber_safe (n : Z) :
  Z.abs n < BigNumber.MAX_SAFE -> BigNumber.fromNumber n = Returned n.
Proof.
  intros Hn. unfold BigNumber.fromNumber.
  destruct (Z.leb_spec BigNumber.MAX_SAFE n); [lia |].
  destruct (Z.leb_spec n (- BigNumber.MAX_SAFE)); [lia | reflexivity].
Qed.

Lemma toNumber_safe (a : Z) :
  Z.abs a < 2 ^ 53 -> BigNumber.toNumber a = Returned a.
Proof.
  intros Ha. unfold BigNumber.toNumber.
  now destruct (Z.ltb_spec (Z.abs a) (2 ^ 53)); [| lia].
Qed.

(** C2. After two successful chain reads, with the amounts decimal integers
    and the nonces within what a number holds exactly, [reconcileDeposit]
    returns: for participant 0, the deposit's amount plus the initial amount
    when the deposit's nonce is above the stored one, and the initial amount
    otherwise; for participant 1, the balance on chain less participant 0's
    new balance less the locked balance; and the deposit's nonce.  From
    ["0","0"], nonce 0, balance 100 on chain and deposit {100, nonce 1} it
    returns ["100","0"] and nonce 1. *)
Theorem reconcileDeposit_balances
    (channelAddress : string) (chainId0 : Z) (initialBalance : Balance.t)
    (latestDepositNonce0 : Z) (lockedBalance0 assetId : string)
    (onchainService : IVectorOnchainService)
    (onchainBalance : Z) (latestDepositA : Deposit)
    (amount0 : string) (a0 locked : Z) :
  (getChannelOnchainBalance onchainService channelAddress chainId0 assetId =
     Result.ok onchainBalance ->
   getLatestDepositByAssetId onchainService channelAddress chainId0 assetId
     latestDepositNonce0 = Result.ok latestDepositA ->
   nth_error (Balance.amount initialBalance) 0 = Some amount0 ->
   BigNumber.fromString amount0 = Returned a0 ->
   BigNumber.fromString lockedBalance0 = Returned locked ->
   Z.abs latestDepositNonce0 < BigNumber.MAX_SAFE ->
   Z.abs (d_nonce latestDepositA) < 2 ^ 53 ->
   let balanceA :=
     if latestDepositNonce0 <? d_nonce latestDepositA
     then d_amount latestDepositA + a0
     else a0 in
   let balanceB := onchainBalance - balanceA - locked in
   reconcileDeposit channelAddress chainId0 initialBalance latestDepositNonce0
                    lockedBalance0 assetId onchainService =
   Returned (Result.ok
     {| r_balance := {| Balance.to := Balance.to initialBalance;
                        Balance.amount := [BigNumber.toString balanceA;
                                           BigNumber.toString balanceB] |};
        r_latestDepositNonce := d_nonce latestDepositA |})) /\
  reconcileDeposit "0xChannelA" 1
    (Balance.mk [Demo.aliceAddress; Demo.bobAddress] ["0"; "0"]) 0 "0" "0x0" Demo.chain =
  Returned (Result.ok
    {| r_balance := Balance.mk [Demo.aliceAddress; Demo.bobAddress] ["100"; "0"];
       r_latestDepositNonce := 1 |}).
Proof.
  split; [| reflexivity].
  intros Hbal Hdep Ha0 Hp0 Hlock Hn Hd balanceA balanceB.
  unfold reconcileDeposit. rewrite Hbal. cbn [Result.ok Result.construct truthy
    option_Like Result.isError Result.getValue Result.value bind].
  rewrite Hdep. cbn [Result.ok Result.construct truthy
    option_Like Result.isError Result.getValue Result.value bind defined].
  unfold BigNumber.gt. rewrite (fromNumber_safe _ Hn). cbn [bind].
  rewrite Ha0. unfold BigNumber.add, BigNumber.fromSlot.
  rewrite Hlock, (toNumber_safe _ Hd).
  subst balanceA balanceB.
  destruct (latestDepositNonce0 <? d_nonce latestDepositA);
    rewrite Hp0; cbn [bind]; now rewrite Z.sub_add_distr.
Qed.

Lemma reconcileDeposit_balances_witness :
  reconcileDeposit "0xChannelA" 1
    (Balance.mk [Demo.aliceAddress; Demo.bobAddress] ["5"; "0"]) 0 "20" "0x0" Demo.chain =
  Returned (Result.ok
    {| r_balance := Balance.mk [Demo.aliceAddress; Demo.bobAddress] ["105"; "-25"];
       r_latestDepositNonce := 1 |}).
Proof.
  apply (proj1 (reconcileDeposit_balances "0xChannelA" 1
           (Balance.mk [Demo.aliceAddress; Demo.bobAddress] ["5"; "0"]) 0 "20" "0x0"
           Demo.chain 100 {| d_nonce := 1; d_amount := 100 |} "5" 5 20));
    try reflexivity; vm_compute; reflexivity.
Defined.

(** * Further properties *)

(** ** The bus: replies *)

(** What a send comes to when the other tasks follow a script: the fate of
    its own handler, which saw the outbound event first. *)
Lemma sendProtocolMessage_run channelUpdate previousUpdate0 timeout numRetries script w :
  let inbox0 := entropy w (drawn w) in
  let h0 := {| accepts := replyFilter channelUpdate inbox0;
               timeout_ms := default 20000 timeout;
               deadline := now w + default 20000 timeout;
               promise := Pending |} in
  fst (sendProtocolMessage channelUpdate previousUpdate0 timeout numRetries (run script) w) =
  match promise (evolve (now w) script
                   (offer (outbound channelUpdate previousUpdate0 inbox0) h0)) with
  | Pending => None
  | Rejected e => Some (Thrown e)
  | Resolved res =>
      Some (Returned
        (if truthy (error (data res))
         then Result.construct (error (data res)) None
         else Result.ok {| p_update := update (data res);
                           p_previousUpdate := previousUpdate (data res) |}))
  end.
Proof.
  intros inbox0 h0.
  unfold sendProtocolMessage. rewrite sendProtocolMessage_start_eq.
  cbv zeta. cbn [fst snd]. fold inbox0.
  unfold sendProtocolMessage_finish. rewrite run_waiters, nth_error_map.
  simpl waiters. rewrite map_app. simpl map.
  rewrite nth_error_app2; rewrite length_map; [| lia].
  rewrite Nat.sub_diag. simpl. reflexivity.
Qed.

Lemma own_event_rejected channelUpdate previousUpdate0 inbox0 :
  fromIdentifier channelUpdate <> toIdentifier channelUpdate ->
  replyFilter channelUpdate inbox0 (outbound channelUpdate previousUpdate0 inbox0) = false.
Proof.
  intros Hself. rewrite replyFilter_spec. simpl.
  apply String.eqb_neq in Hself. now rewrite Hself.
Qed.

(** X1. A response to an open send is taken exactly when it names the
    counterparty as its sender: then the send returns the response's update
    and previous update; otherwise the send stays suspended. *)
Theorem response_taken_iff_sent_by_counterparty
    (channelUpdate : ChannelUpdate) (previousUpdate0 : option ChannelUpdate)
    (timeout numRetries : option Z) (sentBy0 inbox0 : string)
    (reply : ChannelUpdate) (replyPrevious : option ChannelUpdate) (w : World) :
  fromIdentifier channelUpdate <> toIdentifier channelUpdate ->
  fromIdentifier reply = fromIdentifier channelUpdate ->
  toIdentifier reply = toIdentifier channelUpdate ->
  fst (sendProtocolMessage channelUpdate previousUpdate0 timeout numRetries
         (respondToProtocolMessage sentBy0 reply inbox0 replyPrevious) w) =
  if (sentBy0 =? toIdentifier channelUpdate)%string
  then Some (Returned (Result.ok {| p_update := Some reply;
                                    p_previousUpdate := replyPrevious |}))
  else None.
Proof.
  intros Hself Hfrom Hto.
  change (respondToProtocolMessage sentBy0 reply inbox0 replyPrevious)
    with (run [Post {| to := fromIdentifier reply; from := toIdentifier reply;
                       inbox := Some inbox0;
                       data := {| update := Some reply; previousUpdate := replyPrevious;
                                  error := None |};
                       sentBy := sentBy0 |}]).
  rewrite sendProtocolMessage_run. cbv zeta.
  unfold offer at 1. cbn [promise accepts].
  rewrite (own_event_rejected _ _ _ Hself).
  cbn [evolve]. unfold offer. cbn [promise accepts].
  rewrite replyFilter_spec. cbn [from to sentBy].
  rewrite Hfrom, Hto, !String.eqb_refl. cbn [andb].
  destruct (sentBy0 =? toIdentifier channelUpdate)%string; reflexivity.
Qed.

Lemma response_taken_iff_sent_by_counterparty_witness :
  fst (sendProtocolMessage Demo.updateA None None None
         (respondToProtocolMessage Demo.bob (Demo.updateOn "0xChannelA" 3) "inbox-0"
            (Some Demo.updateA)) Demo.service) =
  Some (Returned (Result.ok {| p_update := Some (Demo.updateOn "0xChannelA" 3);
                               p_previousUpdate := Some Demo.updateA |})).
Proof.
  apply (response_taken_iff_sent_by_counterparty Demo.updateA None None None
           Demo.bob "inbox-0" (Demo.updateOn "0xChannelA" 3) (Some Demo.updateA)
           Demo.service).
  - discriminate.
  - reflexivity.
  - reflexivity.
Defined.

(** X2. An error response to an open send makes the send return a failed
    result holding that error. *)
Theorem error_response_fails_the_send
    (channelUpdate : ChannelUpdate) (previousUpdate0 : option ChannelUpdate)
    (timeout numRetries : option Z) (inbox0 : string)
    (e : InboundChannelUpdateError) (w : World) :
  fromIdentifier channelUpdate <> toIdentifier channelUpdate ->
  fst (sendProtocolMessage channelUpdate previousUpdate0 timeout numRetries
         (respondWithProtocolError (fromIdentifier channelUpdate)
            (toIdentifier channelUpdate) inbox0 e) w) =
  Some (Returned (Result.mk None (Some e) true)).
Proof.
  intros Hself.
  change (respondWithProtocolError (fromIdentifier channelUpdate)
            (toIdentifier channelUpdate) inbox0 e)
    with (run [Post {| to := fromIdentifier channelUpdate;
                       from := toIdentifier channelUpdate;
                       inbox := Some inbox0;
                       data := {| update := None; previousUpdate := None;
                                  error := Some e |};
                       sentBy := toIdentifier channelUpdate |}]).
  rewrite sendProtocolMessage_run. cbv zeta.
  unfold offer at 1. cbn [promise accepts].
  rewrite (own_event_rejected _ _ _ Hself).
  cbn [evolve]. unfold offer. cbn [promise accepts].
  rewrite replyFilter_spec. cbn [from to sentBy].
  rewrite !String.eqb_refl. reflexivity.
Qed.

Lemma error_response_fails_the_send_witness :
  fst (sendProtocolMessage Demo.updateA None None None
         (respondWithProtocolError Demo.alice Demo.bob "inbox-0" Demo.staleUpdate)
         Demo.service) =
  Some (Returned (Result.mk None (Some Demo.staleUpdate) true)).
Proof.
  apply (error_response_fails_the_send Demo.updateA None None None "inbox-0"
           Demo.staleUpdate Demo.service).
  discriminate.
Defined.

(** X3. The first event the filter accepts settles the send; whatever is
    posted or however much time passes afterwards changes nothing. *)
Theorem first_reply_wins
    (channelUpdate : ChannelUpdate) (previousUpdate0 : option ChannelUpdate)
    (timeout numRetries : option Z) (reply : Msg) (later : list Step) (w : World) :
  fromIdentifier channelUpdate <> toIdentifier channelUpdate ->
  replyFilter channelUpdate (entropy w (drawn w)) reply = true ->
  fst (sendProtocolMessage channelUpdate previousUpdate0 timeout numRetries
         (run (Post reply :: later)) w) =
  Some (Returned
    (if truthy (error (data reply))
     then Result.construct (error (data reply)) None
     else Result.ok {| p_update := update (data reply);
                       p_previousUpdate := previousUpdate (data reply) |})).
Proof.
  intros Hself Hr.
  rewrite sendProtocolMessage_run. cbv zeta.
  unfold offer at 1. cbn [promise accepts].
  rewrite (own_event_rejected _ _ _ Hself).
  cbn [evolve]. unfold offer at 1. cbn [promise accepts]. rewrite Hr.
  rewrite evolve_settled; [reflexivity | simpl; discriminate].
Qed.

Lemma first_reply_wins_witness :
  fst (sendProtocolMessage Demo.updateA None None None
         (run [Post {| to := Demo.alice; from := Demo.bob; inbox := Some "inbox-0";
                       data := {| update := Some Demo.updateA; previousUpdate := None;
                                  error := None |};
                       sentBy := Demo.bob |};
               Post {| to := Demo.alice; from := Demo.bob; inbox := Some "inbox-0";
                       data := {| update := None; previousUpdate := None;
                                  error := Some Demo.staleUpdate |};
                       sentBy := Demo.bob |};
               Advance 60000]) Demo.service) =
  Some (Returned (Result.ok {| p_update := Some Demo.updateA; p_previousUpdate := None |})).
Proof.
  apply (first_reply_wins Demo.updateA None None None
           {| to := Demo.alice; from := Demo.bob; inbox := Some "inbox-0";
              data := {| update := Some Demo.updateA; previousUpdate := None;
                         error := None |};
              sentBy := Demo.bob |}).
  - discriminate.
  - reflexivity.
Defined.

(** X4. Once [timeout] ms have passed without an accepted event, the send
    throws the timeout error, and a reply that comes afterwards, accepted by
    the filter or not, is not taken. *)
Theorem late_reply_discarded
    (channelUpdate : ChannelUpdate) (previousUpdate0 : option ChannelUpdate)
    (timeout numRetries : option Z) (dt : Z) (later : list Step) (w : World) :
  fromIdentifier channelUpdate <> toIdentifier channelUpdate ->
  default 20000 timeout <= dt ->
  fst (sendProtocolMessage channelUpdate previousUpdate0 timeout numRetries
         (run (Advance dt :: later)) w) =
  Some (Thrown (EvtTimeout (default 20000 timeout))).
Proof.
  intros Hself Hdt.
  rewrite sendProtocolMessage_run. cbv zeta.
  unfold offer at 1. cbn [promise accepts].
  rewrite (own_event_rejected _ _ _ Hself).
  cbn [evolve]. unfold expire at 1. cbn [promise deadline timeout_ms].
  destruct (Z.leb_spec (now w + default 20000 timeout) (now w + dt)); [| lia].
  rewrite evolve_settled; [reflexivity | simpl; discriminate].
Qed.

Lemma late_reply_discarded_witness :
  fst (sendProtocolMessage Demo.updateA None (Some 5000) None
         (run [Advance 5000;
               Post {| to := Demo.alice; from := Demo.bob; inbox := Some "inbox-0";
                       data := {| update := Some Demo.updateA; previousUpdate := None;
                                  error := None |};
                       sentBy := Demo.bob |}]) Demo.service) =
  Some (Thrown (EvtTimeout 5000)).
Proof.
  apply (late_reply_discarded Demo.updateA None (Some 5000) None 5000).
  - discriminate.
  - simpl. lia.
Defined.

(** X5. A send addressed to the sender itself takes the event it has just
    posted as its reply: it returns its own update, whatever happens next. *)
Theorem self_addressed_send_answers_itself
    (channelUpdate : ChannelUpdate) (previousUpdate0 : option ChannelUpdate)
    (timeout numRetries : option Z) (script : list Step) (w : World) :
  fromIdentifier channelUpdate = toIdentifier channelUpdate ->
  fst (sendProtocolMessage channelUpdate previousUpdate0 timeout numRetries
         (run script) w) =
  Some (Returned (Result.ok {| p_update := Some channelUpdate;
                               p_previousUpdate := previousUpdate0 |})).
Proof.
  intros Hself.
  rewrite sendProtocolMessage_run. cbv zeta.
  unfold offer at 1. cbn [promise accepts].
  rewrite replyFilter_spec. cbn [from to sentBy outbound].
  rewrite Hself, !String.eqb_refl. cbn [andb].
  rewrite evolve_settled; [reflexivity | simpl; discriminate].
Qed.

Lemma self_addressed_send_answers_itself_witness :
  let loop := {| cu_channelAddress := "0xChannelA"; fromIdentifier := Demo.alice;
                 toIdentifier := Demo.alice; cu_type := "deposit"; cu_nonce := 2;
                 cu_balance := Demo.noBalance; cu_assetId := "0x0";
                 cu_details := JS.Obj "details"; cu_signatures := [] |} in
  fst (sendProtocolMessage loop None None None (run [Advance 30000]) Demo.service) =
  Some (Returned (Result.ok {| p_update := Some loop; p_previousUpdate := None |})).
Proof.
  intros loop.
  apply (self_addressed_send_answers_itself loop None None None [Advance 30000]).
  reflexivity.
Defined.

(** X6. A handler registered for the counterparty is called, when a send
    starts, with the update and previous update of the send, the sender's
    identifier, and the inbox that was generated for that send. *)
Theorem handler_receives_generated_inbox
    (channelUpdate : ChannelUpdate) (previousUpdate0 : option ChannelUpdate)
    (timeout numRetries : option Z) (cb : string) (w : World) :
  delivered (snd (sendProtocolMessage_start channelUpdate previousUpdate0 timeout numRetries
                    (onReceiveProtocolMessage (toIdentifier channelUpdate) cb w))) =
  (delivered (snd (sendProtocolMessage_start channelUpdate previousUpdate0 timeout
                     numRetries w)) ++
   [{| callee := cb;
       call_result := Result.ok {| p_update := Some channelUpdate;
                                   p_previousUpdate := previousUpdate0 |};
       call_from := fromIdentifier channelUpdate;
       call_inbox := Some (entropy w (drawn w)) |}])%list.
Proof.
  rewrite !sendProtocolMessage_start_eq. cbv zeta. simpl.
  rewrite filter_app, map_app, app_assoc. simpl.
  unfold addressed at 2. simpl. now rewrite String.eqb_refl.
Qed.

(** ** Type guards *)

(** X7. No value is both a channel message and an error message, and a
    value with both a truthy [error] and a truthy [data] is neither. *)
Theorem message_guards_exclusive (msg : Json.t) :
  (isChannelMessage msg = true -> isErrorMessage msg = false) /\
  (truthy (Json.get msg "error") = true -> truthy (Json.get msg "data") = true ->
   isChannelMessage msg = false /\ isErrorMessage msg = false).
Proof.
  unfold isChannelMessage, isErrorMessage. split.
  - destruct (truthy (Json.get msg "error")); [discriminate | reflexivity].
  - intros -> ->. split; reflexivity.
Qed.

Lemma message_guards_exclusive_witness :
  let msg := Json.Obj [("error", Json.Obj [("message", Json.Str "stale")]);
                       ("data", Json.Obj [("update", Json.Obj [])])] in
  isChannelMessage msg = false /\ isErrorMessage msg = false.
Proof.
  intros msg.
  apply (proj2 (message_guards_exclusive msg)); reflexivity.
Defined.

(** X8. An object with the nine core fields of a channel state (and
    whatever else after them) passes [isChannelState] exactly when its
    channel address, timeout and merkle root are non-empty strings: the
    nonces may be 0 and the lists empty.  A value whose [nonce] is not a
    number (a numeric string, say, or a missing field) never passes. *)
Theorem isChannelState_core (s : FullChannelState) (others : list (string * Json.t))
    (blob : Json.t) :
  isChannelState (Json.Obj (coreFields s ++ others)) =
    negb (channelAddress s =? "")%string &&
    negb (timeout s =? "")%string &&
    negb (merkleRoot s =? "")%string /\
  (Json.isNumber (Json.get blob "nonce") = false -> isChannelState blob = false).
Proof.
  split.
  - unfold isChannelState, coreFields. simpl.
    destruct (channelAddress s =? "")%string; [reflexivity |].
    destruct (timeout s =? "")%string; [reflexivity |].
    destruct (merkleRoot s =? "")%string; reflexivity.
  - intros Hn. unfold isChannelState. rewrite Hn. simpl.
    repeat match goal with
           | |- (if ?b then false else _) = false => destruct b; [reflexivity |]
           end.
    reflexivity.
Qed.

Lemma isChannelState_core_witness :
  isChannelState (Json.Obj [("channelAddress", Json.Str "0xChannelA");
                            ("nonce", Json.Str "1")]) = false.
Proof.
  apply (proj2 (isChannelState_core Demo.state []
                  (Json.Obj [("channelAddress", Json.Str "0xChannelA");
                             ("nonce", Json.Str "1")]))).
  reflexivity.
Defined.

(** ** Attaching handlers *)

(** X9. A timeout of 0 is dropped like a missing one, so the handler is
    attached without a timeout; any other timeout is passed on, between the
    filter (if given) and the callback, which always comes last. *)
Theorem addEvtHandler_arguments (callback : string) (filter : option string) (ms : Z) :
  addEvtHandler callback filter (Some 0) = addEvtHandler callback filter None /\
  addEvtHandler callback filter None =
    match filter with
    | Some f => [Some (ByFilter f); Some (ByCallback callback)]
    | None => [Some (ByCallback callback)]
    end /\
  (ms <> 0 ->
   addEvtHandler callback filter (Some ms) =
    match filter with
    | Some f => [Some (ByFilter f); Some (ByTimeout ms); Some (ByCallback callback)]
    | None => [Some (ByTimeout ms); Some (ByCallback callback)]
    end).
Proof.
  split; [| split].
  - destruct filter; reflexivity.
  - destruct filter; reflexivity.
  - intros Hms. apply Z.eqb_neq in Hms.
    unfold addEvtHandler, filterTruthy. destruct filter; simpl; now rewrite Hms.
Qed.

Lemma addEvtHandler_arguments_witness :
  addEvtHandler "onEvent" (Some "isMine") (Some 5000) =
  [Some (ByFilter "isMine"); Some (ByTimeout 5000); Some (ByCallback "onEvent")].
Proof.
  apply (proj2 (proj2 (addEvtHandler_arguments "onEvent" (Some "isMine") 5000))).
  discriminate.
Defined.

(** ** Result and JSON *)

Lemma assoc_set_same k v fields : Json.assoc k (Json.set k v fields) = Some v.
Proof.
  induction fields as [| [k' v'] fields IH]; simpl.
  - now rewrite String.eqb_refl.
  - destruct (k' =? k)%string eqn:Hk; simpl.
    + now rewrite String.eqb_refl.
    + now rewrite Hk.
Qed.

Lemma assoc_set_other k k' v fields :
  k' <> k -> Json.assoc k' (Json.set k v fields) = Json.assoc k' fields.
Proof.
  intros Hne. induction fields as [| [k0 v0] fields IH]; simpl.
  - apply String.eqb_neq in Hne. rewrite String.eqb_sym. now rewrite Hne.
  - destruct (k0 =? k)%string eqn:Hk; simpl.
    + apply String.eqb_eq in Hk. subst k0.
      assert (Hf : (k =? k')%string = false) by (apply String.eqb_neq; congruence).
      now rewrite Hf.
    + destruct (k0 =? k')%string; [reflexivity | apply IH].
Qed.

(** X10. Through [toJson] and back through [fromJson]: a success comes back
    as it was; so does a failure whose error is truthy and not an [Error]
    instance; a failure with an [Error] instance comes back as a failure
    whose error is a plain object with the instance's own fields and its
    message. *)
Theorem Result_json_round_trip {T : Type} (v : T) (e : Json.t)
    (message k : string) (own : list (string * Json.t)) :
  fromJson (toJson (@Result.ok T Json.t _ v)) = Result.ok v /\
  (truthy e = true -> plain e = true ->
   fromJson (toJson (@Result.fail T Json.t _ e)) = Result.fail e) /\
  (exists o,
     fromJson (toJson (@Result.fail T Json.t _ (Json.Err message own))) =
       Result.mk None (Some (Json.Obj o)) true /\
     Json.get (Json.Obj o) "message" = Json.Str message /\
     (k <> "message" ->
      Json.get (Json.Obj o) k = Json.get (Json.Obj own) k)).
Proof.
  split; [reflexivity |]. split.
  - intros Ht Hp. rewrite (fail_truthy_fields e Ht).
    unfold toJson. simpl.
    destruct e; try discriminate; unfold fromJson; now rewrite fail_truthy_fields.
  - exists (Json.set "message" (Json.Str message) own).
    split; [reflexivity |]. split.
    + simpl. now rewrite assoc_set_same.
    + intros Hk. simpl. now rewrite assoc_set_other.
Qed.

Lemma Result_json_round_trip_witness :
  fromJson (toJson (@Result.fail nat Json.t _ (Json.Str "Update is stale"))) =
  Result.fail (Json.Str "Update is stale").
Proof.
  apply (proj1 (proj2 (@Result_json_round_trip nat 0%nat (Json.Str "Update is stale")
                         "" "" []))); reflexivity.
Defined.

(** X11. What [fromJson] builds is a failure exactly when the JSON is the
    error form and its error is truthy.  An error form with a falsy error
    (say [""], [0], [null] or nothing) comes back as a success without a
    value; and a failure made with a falsy error already serialises as a
    success without a value. *)
Theorem fromJson_failure_needs_truthy_error {U : Type} (json : ResultJson U) (e : Json.t) :
  (Result.isError (fromJson json) = true <->
   exists e', json = JsonError e' /\ truthy e' = true) /\
  (truthy e = false ->
   @fromJson U (JsonError e) = Result.mk None None false /\
   toJson (@Result.fail U Json.t _ e) = JsonValue None).
Proof.
  split.
  - destruct json as [e' | v]; simpl.
    + unfold Result.fail, Result.construct. simpl.
      destruct (Json.truthy e') eqn:Ht; simpl; split.
      * intros _. now exists e'.
      * reflexivity.
      * discriminate.
      * intros [e'' [[= <-] Ht']]. simpl in Ht'. congruence.
    + split; [discriminate |]. intros [e' [Hj _]]. discriminate.
  - intros He. unfold fromJson. rewrite (fail_falsy_fields e He). split; reflexivity.
Qed.

Lemma fromJson_failure_needs_truthy_error_witness :
  @fromJson nat (JsonError (Json.Str "")) = Result.mk None None false /\
  toJson (@Result.fail nat Json.t _ (Json.Str "")) = JsonValue None.
Proof.
  apply (proj2 (@fromJson_failure_needs_truthy_error nat (JsonValue None) (Json.Str ""))).
  reflexivity.
Defined.

(** ** Router fees *)

(** Case analysis on every step of a run that returned. *)
Ltac split_run :=
  repeat match goal with
         | H : Thrown _ = Returned _ |- _ => discriminate H
         | H : Returned _ = Returned _ |- _ => injection H as H; try subst
         | H : context [match ?x with _ => _ end] |- _ => destruct x eqn:?
         end.

Section FeeFacts.
Import Fees.
Context `{Fees.Imports}.

Lemma mulNumber_safe (a n : Z) :
  Z.abs n < BigNumber.MAX_SAFE -> mulNumber a n = Returned (a * n).
Proof. intros Hn. unfold mulNumber. now rewrite (fromNumber_safe n Hn). Qed.

Lemma lookup_twoKeys (k1 k2 : string) (v1 v2 : Z) :
  lookup k2 (twoKeys k1 v1 k2 v2) = Some v2 /\
  lookup k1 (twoKeys k1 v1 k2 v2) = Some (if (k1 =? k2)%string then v2 else v1).
Proof.
  unfold twoKeys. destruct (k1 =? k2)%string eqn:Hk; simpl.
  - rewrite Hk, String.eqb_refl. now split.
  - rewrite Hk, !String.eqb_refl. now split.
Qed.

End FeeFacts.

(** X12. Off mainnet, [normalizeFee] fails with a chain error whatever the
    chain reader and the gas price override are.  On mainnet, for the base
    asset, it returns the fee times the gas price: the override when one is
    given (a zero override included), else the reader's price; and a reader
    that cannot give the price makes it fail with a chain error. *)
Theorem normalizeFee_base_asset (I : Fees.Imports) (fee chainId g : Z)
    (asset : string) (ethReader : Fees.IVectorChainReader) (override : option Z) :
  (chainId <> 1 ->
   Fees.normalizeFee (Some fee) asset chainId ethReader override =
   Returned (Fees.fail Fees.ChainError
     [("message", Json.Str "Cannot get normalize fees that are not going to mainnet");
      ("toAssetId", Json.Str asset);
      ("toChainId", Json.Num chainId);
      ("fee", Json.Str (BigNumber.toString fee))])) /\
  Fees.normalizeFee (Some fee) Fees.AddressZero 1 ethReader (Some g) =
    Returned (Result.ok (fee * g)) /\
  (Fees.getGasPrice ethReader 1 = Result.ok g ->
   Fees.normalizeFee (Some fee) Fees.AddressZero 1 ethReader None =
     Returned (Result.ok (fee * g))) /\
  (Result.isError (Fees.getGasPrice ethReader 1) = true ->
   Fees.normalizeFee (Some fee) Fees.AddressZero 1 ethReader None =
     Returned (Fees.fail Fees.ChainError
       [("getGasPriceError",
         Fees.jsonifyError (Result.getError (Fees.getGasPrice ethReader 1)))])).
Proof.
  split; [| split; [| split]].
  - intros Hc. apply Z.eqb_neq in Hc.
    unfold Fees.normalizeFee. simpl. now rewrite Hc.
  - reflexivity.
  - intros Hg. unfold Fees.normalizeFee. simpl. rewrite Hg. reflexivity.
  - intros Hg. unfold Fees.normalizeFee. simpl. now rewrite Hg.
Qed.

(** X13. With gas fully subsidized (100), the fee is the percentage of the
    amount, rounded towards zero, plus the flat fee, whatever the channels
    and the chain reader are; no error is returned when that fee exceeds
    the amount. *)
Theorem calculateFeeAmount_fully_subsidized (I : Fees.Imports)
    (transferAmount : Z) (fromAssetId toAssetId : string)
    (fromChannel toChannel : Fees.RoutedChannel)
    (ethReader : Fees.IVectorChainReader) (routerPublicIdentifier : string)
    (rates : Fees.SwapFees) (flat : Z) :
  Fees.getSwapFees fromAssetId (Fees.rc_chainId fromChannel)
                   toAssetId (Fees.rc_chainId toChannel) = Result.ok rates ->
  Fees.gasSubsidyPercentage rates = 100 ->
  Z.abs (Fees.percentageFee rates) < BigNumber.MAX_SAFE ->
  BigNumber.fromString (Fees.flatFee rates) = Returned flat ->
  let fee := Z.quot (transferAmount * Fees.percentageFee rates) 100 + flat in
  Fees.calculateFeeAmount transferAmount fromAssetId fromChannel toAssetId toChannel
                          ethReader routerPublicIdentifier =
    Returned (Result.ok fee) /\
  (0 <= transferAmount -> 0 <= Fees.percentageFee rates -> transferAmount < flat ->
   transferAmount < fee).
Proof.
  intros Hfees Hsub Hpct Hflat fee. split.
  - unfold Fees.calculateFeeAmount. cbv zeta. rewrite Hfees.
    cbn [Result.ok Result.construct truthy option_Like Result.isError
         Result.getValue Result.value bind defined].
    unfold Fees.mulNumber. rewrite (fromNumber_safe _ Hpct). cbn [bind].
    unfold BigNumber.add, BigNumber.fromSlot. rewrite Hflat. cbn [bind].
    rewrite Hsub. reflexivity.
  - intros Ha Hp Hlt. subst fee.
    assert (0 <= Z.quot (transferAmount * Fees.percentageFee rates) 100).
    { apply Z.quot_pos; nia. }
    lia.
Qed.

Lemma normalizeFee_base_asset_witness :
  @Fees.normalizeFee (DemoFees.imports 50) (Some 295000) Fees.AddressZero 1
     DemoFees.reader None = Returned (Result.ok (295000 * 40)).
Proof.
  apply (proj1 (proj2 (proj2 (normalizeFee_base_asset (DemoFees.imports 50)
           295000 1 40 Fees.AddressZero DemoFees.reader None)))).
  reflexivity.
Defined.

Lemma calculateFeeAmount_fully_subsidized_witness :
  @Fees.calculateFeeAmount (DemoFees.imports 100) 200 DemoFees.token DemoFees.fromChannel
     DemoFees.token DemoFees.toChannel DemoFees.reader DemoFees.router =
    Returned (Result.ok 302) /\
  200 < 302.
Proof.
  pose proof (calculateFeeAmount_fully_subsidized (DemoFees.imports 100) 200
                DemoFees.token DemoFees.token DemoFees.fromChannel DemoFees.toChannel
                DemoFees.reader DemoFees.router
                {| Fees.flatFee := "300"; Fees.percentageFee := 1;
                   Fees.gasSubsidyPercentage := 100 |} 300
                eq_refl eq_refl ltac:(vm_compute; reflexivity) eq_refl) as [Hfee Hover].
  split; [exact Hfee |].
  apply Hover; simpl; lia.
Defined.

(** X14. When [calculateEstimatedGasFee] succeeds, its result has an entry
    for the receiving channel, which is zero, [depositBob],
    [createChannelAndDepositAlice] or [depositAlice], and an entry for the
    sending channel, which is zero, [withdraw], [createChannel + withdraw],
    [depositBob], [createChannelAndDepositAlice] or [depositAlice]; when the
    two channels have the same address there is one entry, the receiving
    channel's. *)
Theorem calculateEstimatedGasFee_entries (I : Fees.Imports)
    (amountToSend : Z) (toAssetId fromAssetId : string)
    (fromChannel toChannel : Fees.RoutedChannel)
    (ethReader : Fees.IVectorChainReader) (routerPublicIdentifier : string)
    (r : Result.t (list (string * Z)) Fees.FeeError) :
  Fees.calculateEstimatedGasFee amountToSend toAssetId fromAssetId fromChannel toChannel
    ethReader routerPublicIdentifier = Returned r ->
  Result.isError r = false ->
  exists feeFrom feeTo,
    r = Result.ok (Fees.twoKeys (Fees.rc_channelAddress fromChannel) feeFrom
                                (Fees.rc_channelAddress toChannel) feeTo) /\
    In feeFrom [0; Fees.gas_withdraw; Fees.gas_createChannel + Fees.gas_withdraw;
                Fees.gas_depositBob; Fees.gas_createChannelAndDepositAlice;
                Fees.gas_depositAlice] /\
    In feeTo [0; Fees.gas_depositBob; Fees.gas_createChannelAndDepositAlice;
              Fees.gas_depositAlice].
Proof.
  unfold Fees.calculateEstimatedGasFee, Fees.gtText, Fees.ltText, Fees.gteText,
    BigNumber.add, bind, defined.
  intros Hrun Hok. split_run; try discriminate Hok;
  eexists _, _; (split; [reflexivity |]); simpl; intuition.
Qed.

Lemma calculateEstimatedGasFee_entries_witness :
  exists feeFrom feeTo,
    Result.ok [("0xChannelA", 295000); ("0xChannelB", 50000)] =
    Result.ok (Fees.twoKeys (Fees.rc_channelAddress DemoFees.fromChannel) feeFrom
                            (Fees.rc_channelAddress DemoFees.toChannel) feeTo) /\
    In feeFrom [0; 95000; 200000 + 95000; 50000; 250000; 85000] /\
    In feeTo [0; 50000; 250000; 85000].
Proof.
  apply (calculateEstimatedGasFee_entries (DemoFees.imports 50) 1000
           Fees.AddressZero Fees.AddressZero DemoFees.fromChannel DemoFees.toChannel
           DemoFees.reader DemoFees.router
           (Result.ok [("0xChannelA", 295000); ("0xChannelB", 50000)]));
    reflexivity.
Defined.

(** X15. When [calculateEstimatedGasFee] succeeds, the receiving channel's
    entry is zero if the router's balance there covers the converted amount;
    otherwise it is [depositBob] if the router is bob, and if the router is
    alice it is [createChannelAndDepositAlice] when the channel has no code
    ("0x") and [depositAlice] when it has. *)
Theorem receiving_channel_gas (I : Fees.Imports)
    (amountToSend : Z) (toAssetId fromAssetId : string)
    (fromChannel toChannel : Fees.RoutedChannel)
    (ethReader : Fees.IVectorChainReader) (routerPublicIdentifier : string)
    (r : Result.t (list (string * Z)) Fees.FeeError)
    (p : Fees.Participant) (converted : string) (routerBalance convertedValue : Z) :
  Fees.calculateEstimatedGasFee amountToSend toAssetId fromAssetId fromChannel toChannel
    ethReader routerPublicIdentifier = Returned r ->
  Result.isError r = false ->
  Fees.getParticipant toChannel routerPublicIdentifier = Some p ->
  Fees.getSwappedAmount (BigNumber.toString amountToSend) fromAssetId
    (Fees.rc_chainId fromChannel) toAssetId (Fees.rc_chainId toChannel) =
    Result.ok converted ->
  BigNumber.fromString (Fees.getBalanceForAssetId toChannel toAssetId p) =
    Returned routerBalance ->
  BigNumber.fromString converted = Returned convertedValue ->
  exists gasFees,
    Result.value r = Some gasFees /\
    Fees.lookup (Fees.rc_channelAddress toChannel) gasFees =
    Some (if convertedValue <=? routerBalance then 0
          else match p with
               | Fees.bob => Fees.gas_depositBob
               | Fees.alice =>
                   if optstr_eqb
                        (Result.value (Fees.getCode ethReader
                           (Fees.rc_channelAddress toChannel) (Fees.rc_chainId toChannel)))
                        (Some "0x")
                   then Fees.gas_createChannelAndDepositAlice
                   else Fees.gas_depositAlice
               end).
Proof.
  unfold Fees.calculateEstimatedGasFee, Fees.gtText, Fees.ltText, Fees.gteText,
    BigNumber.add, bind, defined.
  intros Hrun Hok Hp Hconv Hbal Hcv. rewrite Hp, Hconv, Hbal in Hrun.
  cbn [Result.ok Result.construct truthy option_Like Result.isError
       Result.getValue Result.value BigNumber.fromSlot] in Hrun.
  rewrite Hcv in Hrun.
  split_run; try discriminate Hok;
    (eexists; split; [reflexivity |]);
    match goal with
    | |- Fees.lookup ?k2 (Fees.twoKeys ?k1 ?v1 ?k2 ?v2) = _ =>
        rewrite (proj1 (lookup_twoKeys k1 k2 v1 v2))
    end;
    repeat match goal with
           | Hv : Result.getValue ?x = Returned _, He : Result.isError ?x = false |- _ =>
               unfold Result.getValue in Hv; rewrite He in Hv;
               injection Hv as Hv; rewrite Hv
           end;
    repeat match goal with
           | Hb : ?b = _ |- context [if ?b then _ else _] => rewrite Hb
           end;
    reflexivity.
Qed.

Lemma receiving_channel_gas_witness :
  exists gasFees,
    Result.value (@Result.ok _ Fees.FeeError _
                    [("0xChannelA", 295000); ("0xChannelB", 50000)]) = Some gasFees /\
    Fees.lookup "0xChannelB" gasFees = Some 50000.
Proof.
  apply (receiving_channel_gas (DemoFees.imports 50) 1000
           Fees.AddressZero Fees.AddressZero DemoFees.fromChannel DemoFees.toChannel
           DemoFees.reader DemoFees.router
           (Result.ok [("0xChannelA", 295000); ("0xChannelB", 50000)])
           Fees.bob "1000" 500 1000); reflexivity.
Defined.

Lemma normalizeFee_override (I : Fees.Imports) (fee g : Z) (ethReader : Fees.IVectorChainReader) :
  Fees.normalizeFee (Some fee) Fees.AddressZero 1 ethReader (Some g) =
  Returned (Result.ok (fee * g)).
Proof. reflexivity. Qed.

Lemma normalizeFee_reader (I : Fees.Imports) (fee g : Z) (ethReader : Fees.IVectorChainReader) :
  Fees.getGasPrice ethReader 1 = Result.ok g ->
  Fees.normalizeFee (Some fee) Fees.AddressZero 1 ethReader None =
  Returned (Result.ok (fee * g)).
Proof. intros Hg. unfold Fees.normalizeFee. simpl. rewrite Hg. reflexivity. Qed.

(** X16. For a transfer that stays in one asset on one chain other than
    mainnet, with gas not fully subsidized and the gas estimate succeeding,
    the fee is the static fee alone (the percentage of the amount plus the
    flat fee): no gas is charged off mainnet. *)
Theorem calculateFeeAmount_off_mainnet (I : Fees.Imports)
    (transferAmount : Z) (assetId : string)
    (fromChannel toChannel : Fees.RoutedChannel)
    (ethReader : Fees.IVectorChainReader) (routerPublicIdentifier : string)
    (rates : Fees.SwapFees) (flat : Z) (gasFees : list (string * Z)) :
  Fees.rc_chainId fromChannel = Fees.rc_chainId toChannel ->
  Fees.rc_chainId fromChannel <> 1 ->
  Fees.getSwapFees assetId (Fees.rc_chainId fromChannel)
                   assetId (Fees.rc_chainId toChannel) = Result.ok rates ->
  Fees.gasSubsidyPercentage rates <> 100 ->
  Z.abs (Fees.percentageFee rates) < BigNumber.MAX_SAFE ->
  Z.abs (100 - Fees.gasSubsidyPercentage rates) < BigNumber.MAX_SAFE ->
  BigNumber.fromString (Fees.flatFee rates) = Returned flat ->
  Fees.calculateEstimatedGasFee transferAmount assetId assetId fromChannel toChannel
    ethReader routerPublicIdentifier = Returned (Result.ok gasFees) ->
  Fees.calculateFeeAmount transferAmount assetId fromChannel assetId toChannel
                          ethReader routerPublicIdentifier =
    Returned (Result.ok (Z.quot (transferAmount * Fees.percentageFee rates) 100 + flat)).
Proof.
  intros Hsame Hoff Hfees Hsub Hpct Hrest Hflat Hgas.
  unfold Fees.calculateFeeAmount. cbv zeta. rewrite Hfees.
  cbn [Result.ok Result.construct truthy option_Like Result.isError
       Result.getValue Result.value bind defined].
  rewrite (mulNumber_safe _ _ Hpct). cbn [bind].
  unfold BigNumber.add at 1. unfold BigNumber.fromSlot. rewrite Hflat. cbn [bind].
  apply Z.eqb_neq in Hsub. rewrite Hsub. rewrite Hgas.
  cbn [Result.ok Result.construct truthy option_Like Result.isError
       Result.getValue Result.value bind defined].
  rewrite <- Hsame. apply Z.eqb_neq in Hoff. rewrite Hoff.
  cbn [Result.ok Result.construct truthy option_Like Result.isError
       Result.getValue Result.value bind defined orb Fees.bigText].
  rewrite Z.eqb_refl, String.eqb_refl. cbn [negb orb].
  cbn [Result.ok Result.construct truthy option_Like Result.isError
       Result.getValue Result.value bind defined].
  unfold BigNumber.add. unfold BigNumber.fromSlot.
  rewrite fromString_toString. cbn [bind].
  rewrite (mulNumber_safe _ _ Hrest). cbn [bind].
  unfold Fees.div100. simpl Z.quot. now rewrite Z.add_0_r.
Qed.

(** X17. For a transfer of the base asset between two mainnet channels,
    with gas not fully subsidized, the fee is the static fee plus the
    unsubsidized share, rounded towards zero, of the gas costs: the sending
    channel's estimate at the reduced gas price plus the receiving channel's
    estimate at the reader's gas price. *)
Theorem calculateFeeAmount_mainnet_base_asset (I : Fees.Imports)
    (transferAmount : Z) (fromChannel toChannel : Fees.RoutedChannel)
    (ethReader : Fees.IVectorChainReader) (routerPublicIdentifier : string)
    (rates : Fees.SwapFees) (flat gasFrom gasTo gasPrice : Z)
    (gasFees : list (string * Z)) :
  Fees.rc_chainId fromChannel = 1 ->
  Fees.rc_chainId toChannel = 1 ->
  Fees.getSwapFees Fees.AddressZero 1 Fees.AddressZero 1 = Result.ok rates ->
  Fees.gasSubsidyPercentage rates <> 100 ->
  Z.abs (Fees.percentageFee rates) < BigNumber.MAX_SAFE ->
  Z.abs (100 - Fees.gasSubsidyPercentage rates) < BigNumber.MAX_SAFE ->
  BigNumber.fromString (Fees.flatFee rates) = Returned flat ->
  Fees.calculateEstimatedGasFee transferAmount Fees.AddressZero Fees.AddressZero
    fromChannel toChannel ethReader routerPublicIdentifier = Returned (Result.ok gasFees) ->
  Fees.lookup (Fees.rc_channelAddress fromChannel) gasFees = Some gasFrom ->
  Fees.lookup (Fees.rc_channelAddress toChannel) gasFees = Some gasTo ->
  Fees.getGasPrice ethReader 1 = Result.ok gasPrice ->
  Fees.calculateFeeAmount transferAmount Fees.AddressZero fromChannel
                          Fees.AddressZero toChannel ethReader routerPublicIdentifier =
    Returned (Result.ok
      (Z.quot (transferAmount * Fees.percentageFee rates) 100 + flat +
       Z.quot ((gasFrom * Fees.REDUCED_GAS_PRICE + gasTo * gasPrice) *
               (100 - Fees.gasSubsidyPercentage rates)) 100)).
Proof.
  intros Hfrom Hto Hfees Hsub Hpct Hrest Hflat Hgas Hx Hy Hprice.
  unfold Fees.calculateFeeAmount. cbv zeta. rewrite Hfrom, Hto, Hfees.
  cbn [Result.ok Result.construct truthy option_Like Result.isError
       Result.getValue Result.value bind defined].
  rewrite (mulNumber_safe _ _ Hpct). cbn [bind].
  unfold BigNumber.add at 1. unfold BigNumber.fromSlot. rewrite Hflat. cbn [bind].
  apply Z.eqb_neq in Hsub. rewrite Hsub. rewrite Hgas.
  cbn [Result.ok Result.construct truthy option_Like Result.isError
       Result.getValue Result.value bind defined].
  rewrite Z.eqb_refl, Hx, Hy.
  rewrite normalizeFee_override, (normalizeFee_reader _ _ _ _ Hprice).
  cbn [Result.ok Result.construct truthy option_Like Result.isError
       Result.getValue Result.value bind defined orb Fees.bigText].
  rewrite String.eqb_refl. cbn [negb orb].
  cbn [Result.ok Result.construct truthy option_Like Result.isError
       Result.getValue Result.value bind defined].
  unfold BigNumber.add. unfold BigNumber.fromSlot.
  rewrite fromString_toString. cbn [bind].
  rewrite (mulNumber_safe _ _ Hrest). cbn [bind].
  reflexivity.
Qed.

Lemma calculateFeeAmount_mainnet_base_asset_witness :
  @Fees.calculateFeeAmount (DemoFees.imports 50) 1000 Fees.AddressZero DemoFees.fromChannel
     Fees.AddressZero DemoFees.toChannel DemoFees.reader DemoFees.router =
  Returned (Result.ok (Z.quot (1000 * 1) 100 + 300 +
                       Z.quot ((295000 * 10 + 50000 * 40) * (100 - 50)) 100)).
Proof.
  apply (calculateFeeAmount_mainnet_base_asset (DemoFees.imports 50) 1000
           DemoFees.fromChannel DemoFees.toChannel DemoFees.reader DemoFees.router
           {| Fees.flatFee := "300"; Fees.percentageFee := 1;
              Fees.gasSubsidyPercentage := 50 |}
           300 295000 50000 40 [("0xChannelA", 295000); ("0xChannelB", 50000)]);
    try reflexivity; try discriminate; vm_compute; reflexivity.
Defined.

(** X18. [getExchangeRateInEth] never throws: a failed request, a missing
    body or a missing entry all come back as a failed result.  It succeeds
    only with the [eth] field of the token's entry in the response, and only
    when that field is truthy: a rate of 0 is reported as missing. *)
Theorem getExchangeRateInEth_results (I : Fees.Imports) (tokenAddress : string) :
  exists r,
    Fees.getExchangeRateInEth tokenAddress = Returned r /\
    (Result.isError r = false ->
     exists response_data rate,
       Fees.axios_get
         ("https://api.coingecko.com/api/v3/simple/token_price/ethereum?contract_addresses="
          ++ tokenAddress ++ "&vs_currencies=eth") = Returned response_data /\
       rate = Json.get (Json.get response_data tokenAddress) "eth" /\
       truthy rate = true /\
       r = Result.ok rate).
Proof.
  unfold Fees.getExchangeRateInEth. cbv zeta.
  destruct (Fees.axios_get _) as [response_data | e]; unfold try_catch, bind;
    [| eexists; split; [reflexivity | discriminate]].
  destruct (Json.index response_data tokenAddress) as [entry | e] eqn:Hentry;
    [| eexists; split; [reflexivity | discriminate]].
  assert (He : entry = Json.get response_data tokenAddress).
  { unfold Json.index in Hentry. destruct response_data; congruence. }
  destruct (truthy (Json.get entry "eth")) eqn:Hrate; cbn [negb].
  - assert (Hi : Json.index entry "eth" = Returned (Json.get entry "eth")).
    { unfold Json.index. destruct entry; try reflexivity; discriminate. }
    rewrite Hi. eexists. split; [reflexivity |].
    intros _. exists response_data, (Json.get entry "eth").
    subst entry. repeat split. exact Hrate.
  - eexists. split; [reflexivity | discriminate].
Qed.

Lemma calculateFeeAmount_off_mainnet_witness :
  @Fees.calculateFeeAmount (DemoFees.imports 50) 1000 DemoFees.token
     DemoSidechain.fromChannel DemoFees.token DemoSidechain.toChannel
     DemoFees.reader DemoFees.router =
  Returned (Result.ok (Z.quot (1000 * 1) 100 + 300)).
Proof.
  apply (calculateFeeAmount_off_mainnet (DemoFees.imports 50) 1000 DemoFees.token
           DemoSidechain.fromChannel DemoSidechain.toChannel DemoFees.reader
           DemoFees.router
           {| Fees.flatFee := "300"; Fees.percentageFee := 1;
              Fees.gasSubsidyPercentage := 50 |}
           300 [("0xChannelC", 295000); ("0xChannelD", 50000)]);
    try reflexivity; try discriminate; vm_compute; reflexivity.
Defined.

(** ** Deposits, again *)

(** What a reconciliation computes from two successful reads. *)
Lemma reconcileDeposit_run
    (channelAddress : string) (chainId0 : Z) (initialBalance : Balance.t)
    (latestDepositNonce0 : Z) (lockedBalance0 assetId : string)
    (onchainService : IVectorOnchainService)
    (onchainBalance : Z) (latestDepositA : Deposit)
    (amount0 : string) (a0 locked : Z) :
  getChannelOnchainBalance onchainService channelAddress chainId0 assetId =
    Result.ok onchainBalance ->
  getLatestDepositByAssetId onchainService channelAddress chainId0 assetId
    latestDepositNonce0 = Result.ok latestDepositA ->
  nth_error (Balance.amount initialBalance) 0 = Some amount0 ->
  BigNumber.fromString amount0 = Returned a0 ->
  BigNumber.fromString lockedBalance0 = Returned locked ->
  Z.abs latestDepositNonce0 < BigNumber.MAX_SAFE ->
  Z.abs (d_nonce latestDepositA) < 2 ^ 53 ->
  reconcileDeposit channelAddress chainId0 initialBalance latestDepositNonce0
                   lockedBalance0 assetId onchainService =
  let balanceA :=
    if latestDepositNonce0 <? d_nonce latestDepositA
    then d_amount latestDepositA + a0
    else a0 in
  Returned (Result.ok
    {| r_balance := {| Balance.to := Balance.to initialBalance;
                       Balance.amount :=
                         [BigNumber.toString balanceA;
                          BigNumber.toString (onchainBalance - (balanceA + locked))] |};
       r_latestDepositNonce := d_nonce latestDepositA |}).
Proof.
  intros Hbal Hdep Ha0 Hp0 Hlock Hn Hd.
  unfold reconcileDeposit. rewrite Hbal. cbn [Result.ok Result.construct truthy
    option_Like Result.isError Result.getValue Result.value bind].
  rewrite Hdep. cbn [Result.ok Result.construct truthy
    option_Like Result.isError Result.getValue Result.value bind defined].
  unfold BigNumber.gt. rewrite (fromNumber_safe _ Hn). cbn [bind].
  rewrite Ha0. unfold BigNumber.add, BigNumber.fromSlot.
  rewrite Hlock, (toNumber_safe _ Hd).
  destruct (latestDepositNonce0 <? d_nonce latestDepositA);
    rewrite Hp0; reflexivity.
Qed.

(** X19. A failed chain read is handed back as it is: when the balance
    read fails, or when it succeeds and the deposit read fails, the result is
    a failure holding the reader's error, whatever the other inputs are. *)
Theorem reconcileDeposit_chain_errors
    (channelAddress : string) (chainId0 : Z) (initialBalance : Balance.t)
    (latestDepositNonce0 : Z) (lockedBalance0 assetId : string)
    (onchainService : IVectorOnchainService) (onchainBalance : Z) (e : exn) :
  (getChannelOnchainBalance onchainService channelAddress chainId0 assetId =
     Result.fail e ->
   reconcileDeposit channelAddress chainId0 initialBalance latestDepositNonce0
                    lockedBalance0 assetId onchainService = Returned (Result.fail e)) /\
  (getChannelOnchainBalance onchainService channelAddress chainId0 assetId =
     Result.ok onchainBalance ->
   getLatestDepositByAssetId onchainService channelAddress chainId0 assetId
     latestDepositNonce0 = Result.fail e ->
   reconcileDeposit channelAddress chainId0 initialBalance latestDepositNonce0
                    lockedBalance0 assetId onchainService = Returned (Result.fail e)).
Proof.
  split.
  - intros Hbal. unfold reconcileDeposit. rewrite Hbal. reflexivity.
  - intros Hbal Hdep. unfold reconcileDeposit. rewrite Hbal.
    cbn [Result.ok Result.construct truthy option_Like Result.isError
         Result.getValue Result.value bind].
    rewrite Hdep. reflexivity.
Qed.

Lemma reconcileDeposit_chain_errors_witness :
  reconcileDeposit "0xChannelA" 1 Demo.noBalance 0 "not a number" "0x0"
    {| getChannelOnchainBalance := fun _ _ _ => Result.fail (CallException "rpc down");
       getLatestDepositByAssetId := fun _ _ _ _ => Result.fail (CallException "rpc down") |}
  = Returned (Result.fail (CallException "rpc down")).
Proof.
  apply (proj1 (reconcileDeposit_chain_errors "0xChannelA" 1 Demo.noBalance 0
                  "not a number" "0x0"
                  {| getChannelOnchainBalance := fun _ _ _ =>
                       Result.fail (CallException "rpc down");
                     getLatestDepositByAssetId := fun _ _ _ _ =>
                       Result.fail (CallException "rpc down") |}
                  0 (CallException "rpc down"))).
  reflexivity.
Defined.

(** X20. What a successful reconciliation returns adds up: the two amounts,
    read back as numbers, plus the locked balance equal the balance on
    chain; and the recipients are those of the initial balance. *)
Theorem reconcileDeposit_conserves
    (channelAddress : string) (chainId0 : Z) (initialBalance : Balance.t)
    (latestDepositNonce0 : Z) (lockedBalance0 assetId : string)
    (onchainService : IVectorOnchainService)
    (onchainBalance : Z) (latestDepositA : Deposit)
    (amount0 : string) (a0 locked : Z) :
  getChannelOnchainBalance onchainService channelAddress chainId0 assetId =
    Result.ok onchainBalance ->
  getLatestDepositByAssetId onchainService channelAddress chainId0 assetId
    latestDepositNonce0 = Result.ok latestDepositA ->
  nth_error (Balance.amount initialBalance) 0 = Some amount0 ->
  BigNumber.fromString amount0 = Returned a0 ->
  BigNumber.fromString lockedBalance0 = Returned locked ->
  Z.abs latestDepositNonce0 < BigNumber.MAX_SAFE ->
  Z.abs (d_nonce latestDepositA) < 2 ^ 53 ->
  exists textA textB balanceA balanceB,
    reconcileDeposit channelAddress chainId0 initialBalance latestDepositNonce0
                     lockedBalance0 assetId onchainService =
    Returned (Result.ok
      {| r_balance := {| Balance.to := Balance.to initialBalance;
                         Balance.amount := [textA; textB] |};
         r_latestDepositNonce := d_nonce latestDepositA |}) /\
    BigNumber.fromString textA = Returned balanceA /\
    BigNumber.fromString textB = Returned balanceB /\
    balanceA + balanceB + locked = onchainBalance.
Proof.
  intros Hbal Hdep Ha0 Hp0 Hlock Hn Hd.
  rewrite (reconcileDeposit_run _ _ _ _ _ _ _ _ _ _ _ _ Hbal Hdep Ha0 Hp0 Hlock Hn Hd).
  cbv zeta. do 4 eexists. split; [reflexivity |].
  split; [apply fromString_toString |]. split; [apply fromString_toString |]. lia.
Qed.

Lemma reconcileDeposit_conserves_witness :
  exists textA textB balanceA balanceB,
    reconcileDeposit "0xChannelA" 1
      (Balance.mk [Demo.aliceAddress; Demo.bobAddress] ["5"; "0"]) 0 "20" "0x0" Demo.chain =
    Returned (Result.ok
      {| r_balance := {| Balance.to := [Demo.aliceAddress; Demo.bobAddress];
                         Balance.amount := [textA; textB] |};
         r_latestDepositNonce := 1 |}) /\
    BigNumber.fromString textA = Returned balanceA /\
    BigNumber.fromString textB = Returned balanceB /\
    balanceA + balanceB + 20 = 100.
Proof.
  apply (reconcileDeposit_conserves "0xChannelA" 1
           (Balance.mk [Demo.aliceAddress; Demo.bobAddress] ["5"; "0"]) 0 "20" "0x0"
           Demo.chain 100 {| d_nonce := 1; d_amount := 100 |} "5" 5 20);
    try reflexivity; vm_compute; reflexivity.
Defined.

(** X21. Reconciling again, from the balance and the deposit nonce a
    reconciliation has just returned and with the chain unchanged, returns
    the same balance and nonce: a deposit is counted once. *)
Theorem reconcileDeposit_again
    (channelAddress : string) (chainId0 : Z) (initialBalance : Balance.t)
    (latestDepositNonce0 : Z) (lockedBalance0 assetId : string)
    (onchainService : IVectorOnchainService)
    (onchainBalance : Z) (latestDepositA : Deposit)
    (amount0 : string) (a0 locked : Z) (first : Reconciled) :
  getChannelOnchainBalance onchainService channelAddress chainId0 assetId =
    Result.ok onchainBalance ->
  getLatestDepositByAssetId onchainService channelAddress chainId0 assetId
    latestDepositNonce0 = Result.ok latestDepositA ->
  getLatestDepositByAssetId onchainService channelAddress chainId0 assetId
    (d_nonce latestDepositA) = Result.ok latestDepositA ->
  nth_error (Balance.amount initialBalance) 0 = Some amount0 ->
  BigNumber.fromString amount0 = Returned a0 ->
  BigNumber.fromString lockedBalance0 = Returned locked ->
  Z.abs latestDepositNonce0 < BigNumber.MAX_SAFE ->
  Z.abs (d_nonce latestDepositA) < BigNumber.MAX_SAFE ->
  reconcileDeposit channelAddress chainId0 initialBalance latestDepositNonce0
                   lockedBalance0 assetId onchainService = Returned (Result.ok first) ->
  reconcileDeposit channelAddress chainId0 (r_balance first) (r_latestDepositNonce first)
                   lockedBalance0 assetId onchainService = Returned (Result.ok first).
Proof.
  intros Hbal Hdep Hdep' Ha0 Hp0 Hlock Hn Hd Hfirst.
  assert (Hd53 : Z.abs (d_nonce latestDepositA) < 2 ^ 53).
  { unfold BigNumber.MAX_SAFE in Hd. lia. }
  rewrite (reconcileDeposit_run _ _ _ _ _ _ _ _ _ _ _ _ Hbal Hdep Ha0 Hp0 Hlock Hn Hd53)
    in Hfirst.
  cbv zeta in Hfirst. injection Hfirst as <-.
  cbn [r_balance r_latestDepositNonce].
  set (balanceA := if latestDepositNonce0 <? d_nonce latestDepositA
                   then d_amount latestDepositA + a0 else a0).
  rewrite (reconcileDeposit_run channelAddress chainId0
             {| Balance.to := Balance.to initialBalance;
                Balance.amount :=
                  [BigNumber.toString balanceA;
                   BigNumber.toString (onchainBalance - (balanceA + locked))] |}
             (d_nonce latestDepositA) lockedBalance0 assetId onchainService
             onchainBalance latestDepositA
             (BigNumber.toString balanceA) balanceA locked
             Hbal Hdep' eq_refl (fromString_toString balanceA) Hlock Hd Hd53).
  cbv zeta. rewrite Z.ltb_irrefl. reflexivity.
Qed.

Lemma reconcileDeposit_again_witness :
  reconcileDeposit "0xChannelA" 1
    (Balance.mk [Demo.aliceAddress; Demo.bobAddress] ["105"; "-25"]) 1 "20" "0x0" Demo.chain =
  Returned (Result.ok
    {| r_balance := Balance.mk [Demo.aliceAddress; Demo.bobAddress] ["105"; "-25"];
       r_latestDepositNonce := 1 |}).
Proof.
  apply (reconcileDeposit_again "0xChannelA" 1
           (Balance.mk [Demo.aliceAddress; Demo.bobAddress] ["5"; "0"]) 0 "20" "0x0"
           Demo.chain 100 {| d_nonce := 1; d_amount := 100 |} "5" 5 20
           {| r_balance := Balance.mk [Demo.aliceAddress; Demo.bobAddress] ["105"; "-25"];
              r_latestDepositNonce := 1 |});
    try reflexivity; vm_compute; reflexivity.
Defined.

(** ** Signing, then validating *)

Lemma hd_filterTruthy (sigs : list (option string)) (slot : option string) :
  hd None (filterTruthy sigs) = slot -> slot <> None -> truthy slot = true.
Proof.
  unfold filterTruthy. induction sigs as [| s sigs IH]; simpl.
  - intros <- Hs. congruence.
  - destruct (match s with Some a => negb (a =? "")%string | None => false end) eqn:Hs.
    + simpl. intros <- _. exact Hs.
    + exact IH.
Qed.

Lemma generate_signatures (U : VectorUtils) (newState : FullChannelState)
    (signer : IChannelSigner) (updateSignatures : list (option string)) (i : nat) :
  List.length (filterTruthy updateSignatures) <> 2%nat ->
  NoDup (participants newState) ->
  nth_error (participants newState) i = Some (address signer) ->
  c_signatures (fst (generateSignedChannelCommitment newState signer updateSignatures)) =
  let sig := signMessage signer (hashChannelCommitment (commitment newState [])) in
  if (i =? 0)%nat
  then [Some sig; hd None (filterTruthy updateSignatures)]
  else [hd None (filterTruthy updateSignatures); Some sig].
Proof.
  intros Hlen Hnd Hp. unfold generateSignedChannelCommitment. cbv zeta.
  apply Nat.eqb_neq in Hlen. rewrite Hlen.
  rewrite (findIndex_NoDup (address signer) (participants newState) i Hnd Hp).
  destruct i; reflexivity.
Qed.

(** X22. The commitment a participant has just signed, validated.  With a
    signer whose non-empty signature over the digest recovers to its own
    address, in a channel with distinct participants.  If no counterparty
    signature was provided, the generated signatures are accepted when one is
    required and rejected for lack of a second when two are.  If the provided
    counterparty signature recovers to some address, they are accepted when
    one is required, and when two are required they are accepted exactly if
    that address is the other participant.  If the recovery of the provided
    counterparty signature rejects, validation throws that rejection,
    whether one or two are required. *)
Theorem signed_commitment_validates (U : VectorUtils) (newState : FullChannelState)
    (signer : IChannelSigner) (updateSignatures : list (option string)) (i : nat)
    (e : exn) :
  let digest := hashChannelCommitment (commitment newState []) in
  let sigs := c_signatures (fst (generateSignedChannelCommitment newState signer
                                   updateSignatures)) in
  List.length (filterTruthy updateSignatures) <> 2%nat ->
  NoDup (participants newState) ->
  (i < 2)%nat ->
  nth_error (participants newState) i = Some (address signer) ->
  signMessage signer digest <> "" ->
  recoverAddressFromChannelMessage digest (signMessage signer digest) =
    Returned (address signer) ->
  (hd None (filterTruthy updateSignatures) = None ->
   fst (validateChannelUpdateSignatures newState sigs (Some 1%nat)) = Returned None /\
   fst (validateChannelUpdateSignatures newState sigs (Some 2%nat)) =
     Returned (Some "Only 1/2 signatures present")) /\
  (forall counterpartySignature who,
     hd None (filterTruthy updateSignatures) = Some counterpartySignature ->
     recoverAddressFromChannelMessage digest counterpartySignature = Returned who ->
     fst (validateChannelUpdateSignatures newState sigs (Some 1%nat)) = Returned None /\
     (nth_error (participants newState) (1 - i) = Some who ->
      fst (validateChannelUpdateSignatures newState sigs (Some 2%nat)) = Returned None) /\
     (nth_error (participants newState) (1 - i) <> Some who ->
      fst (validateChannelUpdateSignatures newState sigs (Some 2%nat)) =
        Returned (Some "Only 1/2 are valid signatures"))) /\
  (forall counterpartySignature,
     hd None (filterTruthy updateSignatures) = Some counterpartySignature ->
     recoverAddressFromChannelMessage digest counterpartySignature = Thrown e ->
     fst (validateChannelUpdateSignatures newState sigs (Some 1%nat)) = Thrown e /\
     fst (validateChannelUpdateSignatures newState sigs (Some 2%nat)) = Thrown e).
Proof.
  intros digest sigs Hlen Hnd Hi Hp Hsig Hrec. subst sigs.
  rewrite (generate_signatures U newState signer updateSignatures i Hlen Hnd Hp).
  cbv zeta. fold digest.
  apply String.eqb_neq in Hsig.
  assert (Hcp : forall cp, hd None (filterTruthy updateSignatures) = Some cp ->
                           (cp =? "")%string = false).
  { intros cp Hhd.
    pose proof (hd_filterTruthy _ _ Hhd ltac:(discriminate)) as Ht.
    simpl in Ht. now apply negb_true_iff in Ht. }
  assert (Hneq : forall (p : option string) who,
            p <> Some who ->
            match p with Some q => (who =? q)%string | None => false end = false).
  { intros [q |] who Hq; [| reflexivity].
    apply String.eqb_neq. congruence. }
  destruct i as [| [| i]]; [| | lia]; cbn [Nat.eqb Nat.sub] in *;
    rewrite !validate_eq; cbv zeta;
    unfold presentCount, firstFault, validCount, slots, slotValid, slotFault;
    fold digest;
    cbn [default List.length seq combine filter map firstSome fst snd truthy
         option_Like string_Like];
    (split; [| split]).
  - intros Hnone. rewrite Hnone, Hp, Hsig, Hrec, String.eqb_refl. split; reflexivity.
  - intros cp who Hhd Hwho.
    rewrite Hhd, Hp, Hsig, Hrec, Hwho, (Hcp cp Hhd), String.eqb_refl.
    cbn [negb andb]. split; [| split].
    + destruct (nth_error (participants newState) 1) as [q |]; [| reflexivity].
      now destruct (who =? q)%string.
    + intros ->. now rewrite String.eqb_refl.
    + intros Hother.
      pose proof (Hneq _ _ Hother) as Hq.
      destruct (nth_error (participants newState) 1) as [q |]; [| reflexivity].
      now rewrite Hq.
  - intros cp Hhd Hthrown.
    rewrite Hhd, Hsig, Hrec, Hthrown, (Hcp cp Hhd). split; reflexivity.
  - intros Hnone. rewrite Hnone, Hp, Hsig, Hrec, String.eqb_refl. split; reflexivity.
  - intros cp who Hhd Hwho.
    rewrite Hhd, Hp, Hsig, Hrec, Hwho, (Hcp cp Hhd), String.eqb_refl.
    cbn [negb andb]. split; [| split].
    + destruct (nth_error (participants newState) 0) as [q |]; [| reflexivity].
      now destruct (who =? q)%string.
    + intros ->. now rewrite String.eqb_refl.
    + intros Hother.
      pose proof (Hneq _ _ Hother) as Hq.
      destruct (nth_error (participants newState) 0) as [q |]; [| reflexivity].
      now rewrite Hq.
  - intros cp Hhd Hthrown.
    rewrite Hhd, Hsig, Hrec, Hthrown, (Hcp cp Hhd). split; reflexivity.
Qed.

Lemma signed_commitment_validates_witness :
  fst (@validateChannelUpdateSignatures Demo.utils Demo.state
         (c_signatures (fst (@generateSignedChannelCommitment Demo.utils Demo.state
                               (Demo.signerOf Demo.bobAddress) [Some Demo.sigAlice; None])))
         (Some 2%nat)) = Returned None /\
  fst (@validateChannelUpdateSignatures Demo.utils Demo.state
         (c_signatures (fst (@generateSignedChannelCommitment Demo.utils Demo.state
                               (Demo.signerOf Demo.bobAddress)
                               [Some "not a signature"; None])))
         (Some 1%nat)) = Thrown (InvalidArgument "invalid signature").
Proof.
  assert (Hnd : NoDup (participants Demo.state)).
  { repeat constructor; simpl; intuition discriminate. }
  split.
  - pose proof (signed_commitment_validates Demo.utils Demo.state
                  (Demo.signerOf Demo.bobAddress) [Some Demo.sigAlice; None] 1%nat
                  (InvalidArgument "invalid signature")
                  ltac:(vm_compute; discriminate) Hnd ltac:(lia) eq_refl
                  ltac:(vm_compute; discriminate) eq_refl) as [_ [Hrecovers _]].
    destruct (Hrecovers Demo.sigAlice Demo.aliceAddress eq_refl eq_refl) as [_ [Htwo _]].
    apply Htwo. reflexivity.
  - pose proof (signed_commitment_validates Demo.utils Demo.state
                  (Demo.signerOf Demo.bobAddress) [Some "not a signature"; None] 1%nat
                  (InvalidArgument "invalid signature")
                  ltac:(vm_compute; discriminate) Hnd ltac:(lia) eq_refl
                  ltac:(vm_compute; discriminate) eq_refl) as [_ [_ Hrejects]].
    apply (Hrejects "not a signature"); reflexivity.
Defined.

(** ** Resolving a transfer, locally or on chain *)

(** X23. With bytecode, [resolve] returns what the local run decodes, the
    amounts left as big numbers; when the local run throws at any step, or
    the bytecode is the empty string, it returns what the deployed contract
    at [transferDefinition] answers, the amounts as decimal strings. *)
Theorem resolve_local_or_onchain (R : TransferRuntime) (transfer : FullTransferState)
    (code encodedState encodedResolver : string) (ret : ResolveReturn) (e : exn) :
  let local :=
    data <- encodeFunctionData "resolve" [encodedState; encodedResolver] ;;
    output <- execEvmBytecode code data ;;
    decodeResolveResult output in
  let onchain :=
    ret <- call_resolve (transferDefinition transfer) encodedState encodedResolver ;;
    Returned {| rb_to := ret_to ret;
                rb_amount := map (fun a => Text (decimal a)) (ret_amount ret) |} in
  abi_encode [nth_error (transferEncodings transfer) 0] [transferState transfer]
    = Returned encodedState ->
  abi_encode [nth_error (transferEncodings transfer) 1] [transferResolver transfer]
    = Returned encodedResolver ->
  resolve transfer (Some "") = onchain /\
  resolve transfer None = onchain /\
  (code <> "" -> local = Returned ret ->
   resolve transfer (Some code) =
     Returned {| rb_to := ret_to ret; rb_amount := map Big (ret_amount ret) |}) /\
  (code <> "" -> local = Thrown e -> resolve transfer (Some code) = onchain).
Proof.
  intros local onchain He Hr. subst local onchain.
  unfold resolve. rewrite He, Hr. cbn [bind].
  split; [reflexivity |]. split; [reflexivity |].
  split; intros Hc Hl; apply String.eqb_neq in Hc;
    cbn [truthy string_Like]; rewrite Hc; cbn [negb];
    unfold try_catch; unfold bind in Hl |- *.
  - destruct (encodeFunctionData _ _); [| discriminate].
    destruct (execEvmBytecode _ _); [| discriminate].
    destruct (decodeResolveResult _); [| discriminate].
    now injection Hl as ->.
  - destruct (encodeFunctionData _ _); [| reflexivity].
    destruct (execEvmBytecode _ _); [| reflexivity].
    destruct (decodeResolveResult _); [discriminate | reflexivity].
Qed.

Lemma resolve_local_or_onchain_witness :
  @resolve Demo.runtime Demo.transfer (Some "0x6080") =
  Returned {| rb_to := [Demo.aliceAddress; Demo.bobAddress];
              rb_amount := [Text "0"; Text "40"] |}.
Proof.
  apply (proj2 (proj2 (proj2 (resolve_local_or_onchain Demo.runtime Demo.transfer
           "0x6080" "0xencoded" "0xencoded" {| ret_to := []; ret_amount := [] |}
           (CallException "bad bytecode") eq_refl eq_refl))));
    [discriminate | reflexivity].
Defined.

(** ** One inbox per send *)

(** X24. Two sends started one after the other post one event each, in
    that order, carrying the next two values of the random source: the
    second send's inbox differs from the first's unless the source repeats
    itself. *)
Theorem successive_sends_use_successive_inboxes
    (update1 update2 : ChannelUpdate) (previous1 previous2 : option ChannelUpdate)
    (timeout1 timeout2 numRetries1 numRetries2 : option Z) (w : World) :
  let w1 := snd (sendProtocolMessage_start update1 previous1 timeout1 numRetries1 w) in
  let w2 := snd (sendProtocolMessage_start update2 previous2 timeout2 numRetries2 w1) in
  posted w2 =
    (posted w ++ [outbound update1 previous1 (entropy w (drawn w));
                  outbound update2 previous2 (entropy w (S (drawn w)))])%list /\
  drawn w2 = S (S (drawn w)) /\
  List.length (waiters w2) = S (S (List.length (waiters w))).
Proof.
  cbv zeta. rewrite !sendProtocolMessage_start_eq. cbv zeta. simpl.
  rewrite <- app_assoc. simpl. split; [reflexivity |]. split; [reflexivity |].
  rewrite !length_map, !length_app, !length_map, length_app. simpl. lia.
Qed.
